(** * dong-tran/docs: the example services of the slide decks

    A shallow embedding of the Go examples whose properties are proved
    below:
    - [CleanArch]: the task service of [clean-architecture-example]
      (packages domain, usecase, handler);
    - [DDD]: the product model and pricing service of [ddd-example];
    - [Integration]: the order aggregate, the patterns and the order use
      case of [integration-example].

    Go values are modelled as the code has them: strings as [string] (a Go
    string is a sequence of bytes and [len] counts them), [int64] and
    [time.Time] as [Z], [float64] as IEEE 754 binary64 ([spec_float] with
    [prec = 53], [emax = 1024]), [error] as an inductive type whose
    constructors are the sentinel variables of the packages and the values
    made by [errors.New].  A method with a pointer receiver returns the
    receiver as it is after the call.  Code that reads the clock or talks to
    a repository is written in a state monad over an abstract world. *)

From Stdlib Require Import ZArith String Ascii List Bool Lia SpecFloat.
Import ListNotations.
Local Open Scope string_scope.
Local Open Scope Z_scope.

(** ** The Go fragments every package uses *)

Module Go.

(** [time.Time], up to the instant it denotes. *)
Definition time := Z.

(** The values of Go's [error] interface that occur in the examples: the
    sentinel variables (compared with [==] in the handlers, so each is a
    constructor of its own) and the values built on the spot by
    [errors.New] or handed up by a library, which the code never compares. *)
Inductive error : Type :=
| ErrEmptyTitle
| ErrTitleTooLong
| ErrDescriptionTooLong
| ErrTaskNotFound
| errors_New (msg : string).

Definition Error (e : error) : string :=
  match e with
  | ErrEmptyTitle => "task title cannot be empty"
  | ErrTitleTooLong => "task title cannot exceed 200 characters"
  | ErrDescriptionTooLong => "task description cannot exceed 1000 characters"
  | ErrTaskNotFound => "task not found"
  | errors_New msg => msg
  end.

Definition error_eqb (a b : error) : bool :=
  match a, b with
  | ErrEmptyTitle, ErrEmptyTitle => true
  | ErrTitleTooLong, ErrTitleTooLong => true
  | ErrDescriptionTooLong, ErrDescriptionTooLong => true
  | ErrTaskNotFound, ErrTaskNotFound => true
  | errors_New x, errors_New y => String.eqb x y
  | _, _ => false
  end.

(** [len(s)] of a string: the number of its bytes. *)
Definition len (s : string) : Z := Z.of_nat (String.length s).

(** State passing over a world [W]: the clock, the database behind a
    repository, the subscribers of a publisher. *)
Definition M (W A : Type) : Type := W -> A * W.

Definition ret {W A : Type} (a : A) : M W A := fun w => (a, w).

Definition bind {W A B : Type} (c : M W A) (k : A -> M W B) : M W B :=
  fun w => let (a, w') := c w in k a w'.

(** [time.Now()]: the world answers with the current instant. *)
Class Clock (W : Type) : Type := { time_Now : M W time }.

(** A function that returns a pointer and an error returns
    [(p, nil)] with [p] non-nil or [(nil, err)] with [err] non-nil in every
    function of the examples; repositories are taken to keep that contract
    too, as the implemented ones do.  Such a result is a sum, and [as_pair]
    is the pair the Go caller sees. *)
Definition as_pair {A : Type} (r : A + error) : option A * option error :=
  match r with
  | inl a => (Some a, None)
  | inr e => (None, Some e)
  end.

End Go.

Export Go.

Declare Scope go_scope.
Delimit Scope go_scope with go.
Notation "x <- c1 ;; c2" := (bind c1 (fun x => c2))
  (at level 61, c1 at next level, right associativity) : go_scope.
Notation "' pat <- c1 ;; c2" := (bind c1 (fun x => match x with pat => c2 end))
  (at level 61, pat pattern, c1 at next level, right associativity) : go_scope.
Local Open Scope go_scope.

(** ** float64 *)

Module Float64.

Definition prec : Z := 53.
Definition emax : Z := 1024.

Definition float64 := spec_float.

(** The values a [float64] variable can hold. *)
Definition valid (x : float64) : bool := valid_binary prec emax x.

(** Conversion of an integer constant (exact for the small constants of
    the examples). *)
Definition of_Z (z : Z) : float64 := binary_normalize prec emax z 0 false.

Definition zero : float64 := Eval cbv in of_Z 0.
Definition hundred : float64 := Eval cbv in of_Z 100.
Definition one : float64 := Eval cbv in of_Z 1.
Definition pos_inf : float64 := S754_infinity false.
Definition nan : float64 := S754_nan.

Definition add : float64 -> float64 -> float64 := SFadd prec emax.
Definition sub : float64 -> float64 -> float64 := SFsub prec emax.
Definition mul : float64 -> float64 -> float64 := SFmul prec emax.
Definition div : float64 -> float64 -> float64 := SFdiv prec emax.

(** Go's [x < y], [x <= y] and [x > y]: false as soon as an operand is NaN. *)
Definition ltb (x y : float64) : bool := SFltb x y.
Definition leb (x y : float64) : bool := SFleb x y.
Definition gtb (x y : float64) : bool := SFltb y x.

Definition is_finite (x : float64) : bool :=
  match x with
  | S754_zero _ | S754_finite _ _ _ => true
  | S754_infinity _ | S754_nan => false
  end.

Definition is_nan (x : float64) : bool :=
  match x with
  | S754_nan => true
  | _ => false
  end.

(** [x < 0], the test both [NewMoney] functions make. *)
Definition negative (x : float64) : bool := ltb x zero.

End Float64.

(** ** clean-architecture-example: the task service *)

Module CleanArch.

(** *** package domain *)

Module domain.

Record Task : Type := {
  ID : Z;
  Title : string;
  Description : string;
  Completed : bool;
  CreatedAt : time;
  UpdatedAt : time
}.

Definition ValidateTitle (title : string) : option error :=
  if String.eqb title "" then Some ErrEmptyTitle
  else if 200 <? len title then Some ErrTitleTooLong
  else None.

Definition ValidateDescription (description : string) : option error :=
  if 1000 <? len description then Some ErrDescriptionTooLong
  else None.

(** The repository interface of the domain layer.  [Create] and [Update]
    receive a pointer: they answer with the error and with the task as the
    call leaves it ([TaskRepositoryImpl.Create] stores the new row's id in
    it).  [GetByID] answers with a task or with an error. *)
Class TaskRepository (W : Type) : Type := {
  Create : Task -> M W (option error * Task);
  GetByID : Z -> M W (Task + error);
  GetAll : M W (list Task * option error);
  Update : Task -> M W (option error * Task);
  Delete : Z -> M W (option error)
}.

(** The four assignments of [(t *Task) Update]. *)
Definition assign (t : Task) (title description : string) (completed : bool) (now : time)
  : Task :=
  {| ID := ID t; Title := title; Description := description;
     Completed := completed; CreatedAt := CreatedAt t; UpdatedAt := now |}.

Section Domain.
Context {W : Type} {clock : Clock W}.

Definition NewTask (title description : string) : M W (Task + error) :=
  match ValidateTitle title with
  | Some err => ret (inr err)
  | None =>
    match ValidateDescription description with
    | Some err => ret (inr err)
    | None =>
      now <- time_Now ;;
      ret (inl {| ID := 0; Title := title; Description := description;
                  Completed := false; CreatedAt := now; UpdatedAt := now |})
    end
  end.

Definition MarkAsCompleted (t : Task) : M W Task :=
  now <- time_Now ;;
  ret {| ID := ID t; Title := Title t; Description := Description t;
         Completed := true; CreatedAt := CreatedAt t; UpdatedAt := now |}.

Definition MarkAsIncomplete (t : Task) : M W Task :=
  now <- time_Now ;;
  ret {| ID := ID t; Title := Title t; Description := Description t;
         Completed := false; CreatedAt := CreatedAt t; UpdatedAt := now |}.

(** [(t *Task) Update]: the error, and [t] after the call. *)
Definition Task_Update (t : Task) (title description : string) (completed : bool)
  : M W (option error * Task) :=
  match ValidateTitle title with
  | Some err => ret (Some err, t)
  | None =>
    match ValidateDescription description with
    | Some err => ret (Some err, t)
    | None =>
      now <- time_Now ;;
      ret (None, assign t title description completed now)
    end
  end.

End Domain.

End domain.

(** *** package usecase *)

Module usecase.
Import domain.

Record CreateTaskInput : Type := {
  create_Title : string;
  create_Description : string
}.

Record UpdateTaskInput : Type := {
  input_ID : Z;
  input_Title : string;
  input_Description : string;
  input_Completed : bool
}.

Section UseCase.
Context {W : Type} {clock : Clock W} {taskRepo : TaskRepository W}.

Definition CreateTask (input : CreateTaskInput) : M W (Task + error) :=
  r <- NewTask (create_Title input) (create_Description input) ;;
  match r with
  | inr err => ret (inr err)
  | inl task =>
    ' (err, task) <- Create task ;;
    match err with
    | Some err => ret (inr err)
    | None => ret (inl task)
    end
  end.

Definition GetTask (id : Z) : M W (Task + error) :=
  r <- GetByID id ;;
  match r with
  | inr _ => ret (inr ErrTaskNotFound)
  | inl task => ret (inl task)
  end.

Definition GetAllTasks : M W (list Task * option error) := GetAll.

Definition UpdateTask (input : UpdateTaskInput) : M W (Task + error) :=
  r <- GetByID (input_ID input) ;;
  match r with
  | inr _ => ret (inr ErrTaskNotFound)
  | inl task =>
    ' (err, task) <- Task_Update task (input_Title input) (input_Description input)
                                 (input_Completed input) ;;
    match err with
    | Some err => ret (inr err)
    | None =>
      ' (err, task) <- Update task ;;
      match err with
      | Some err => ret (inr err)
      | None => ret (inl task)
      end
    end
  end.

Definition DeleteTask (id : Z) : M W (option error) :=
  r <- GetByID id ;;
  match r with
  | inr _ => ret (Some ErrTaskNotFound)
  | inl _ => Delete id
  end.

Definition CompleteTask (id : Z) : M W (Task + error) :=
  r <- GetByID id ;;
  match r with
  | inr _ => ret (inr ErrTaskNotFound)
  | inl task =>
    task <- MarkAsCompleted task ;;
    ' (err, task) <- Update task ;;
    match err with
    | Some err => ret (inr err)
    | None => ret (inl task)
    end
  end.

End UseCase.

End usecase.

(** *** package handler *)

Module handler.
Import domain.

Record CreateTaskRequest : Type := {
  req_create_Title : string;
  req_create_Description : string
}.

Record UpdateTaskRequest : Type := {
  req_Title : string;
  req_Description : string;
  req_Completed : bool
}.

Record TaskResponse : Type := {
  resp_ID : Z;
  resp_Title : string;
  resp_Description : string;
  resp_Completed : bool;
  resp_CreatedAt : string;
  resp_UpdatedAt : string
}.

(** What a handler writes with [c.JSON] or [c.NoContent]. *)
Inductive Body : Type :=
| JSONError (msg : string)
| JSONTask (t : TaskResponse)
| JSONTasks (ts : list TaskResponse)
| NoBody.

Record Response : Type := { Status : Z; Payload : Body }.

Definition StatusOK : Z := 200.
Definition StatusCreated : Z := 201.
Definition StatusNoContent : Z := 204.
Definition StatusBadRequest : Z := 400.
Definition StatusNotFound : Z := 404.
Definition StatusInternalServerError : Z := 500.

(** [echo.Context], as far as the handlers use it: the path parameters and
    the decoding of the request body into the handler's request struct. *)
Class Context (C : Type) : Type := {
  Param : C -> string -> string;
  BindCreate : C -> CreateTaskRequest + error;
  BindUpdate : C -> UpdateTaskRequest + error
}.

Section Handler.
Context {W : Type} {clock : Clock W} {taskRepo : TaskRepository W}.
Context {C : Type} {echo : Context C}.
(** [strconv.ParseInt(s, base, bitSize)] and [time.Time.Format] are the
    standard library's. *)
Variable strconv_ParseInt : string -> Z -> Z -> Z + error.
Variable time_Format : time -> string -> string.

Definition toResponse (task : Task) : TaskResponse :=
  {| resp_ID := ID task;
     resp_Title := Title task;
     resp_Description := Description task;
     resp_Completed := Completed task;
     resp_CreatedAt := time_Format (CreatedAt task) "2006-01-02T15:04:05Z07:00";
     resp_UpdatedAt := time_Format (UpdatedAt task) "2006-01-02T15:04:05Z07:00" |}.

Definition JSON (status : Z) (body : Body) : M W Response :=
  ret {| Status := status; Payload := body |}.

Definition CreateTask (c : C) : M W Response :=
  match BindCreate c with
  | inr _ => JSON StatusBadRequest (JSONError "invalid request body")
  | inl req =>
    r <- usecase.CreateTask {| usecase.create_Title := req_create_Title req;
                               usecase.create_Description := req_create_Description req |} ;;
    match r with
    | inr err => JSON StatusBadRequest (JSONError (Error err))
    | inl task => JSON StatusCreated (JSONTask (toResponse task))
    end
  end.

Definition GetTask (c : C) : M W Response :=
  match strconv_ParseInt (Param c "id") 10 64 with
  | inr _ => JSON StatusBadRequest (JSONError "invalid task id")
  | inl id =>
    r <- usecase.GetTask id ;;
    match r with
    | inr _ => JSON StatusNotFound (JSONError "task not found")
    | inl task => JSON StatusOK (JSONTask (toResponse task))
    end
  end.

Definition UpdateTask (c : C) : M W Response :=
  match strconv_ParseInt (Param c "id") 10 64 with
  | inr _ => JSON StatusBadRequest (JSONError "invalid task id")
  | inl id =>
    match BindUpdate c with
    | inr _ => JSON StatusBadRequest (JSONError "invalid request body")
    | inl req =>
      r <- usecase.UpdateTask {| usecase.input_ID := id;
                                 usecase.input_Title := req_Title req;
                                 usecase.input_Description := req_Description req;
                                 usecase.input_Completed := req_Completed req |} ;;
      match r with
      | inr err =>
        if error_eqb err ErrTaskNotFound
        then JSON StatusNotFound (JSONError "task not found")
        else JSON StatusBadRequest (JSONError (Error err))
      | inl task => JSON StatusOK (JSONTask (toResponse task))
      end
    end
  end.

Definition DeleteTask (c : C) : M W Response :=
  match strconv_ParseInt (Param c "id") 10 64 with
  | inr _ => JSON StatusBadRequest (JSONError "invalid task id")
  | inl id =>
    err <- usecase.DeleteTask id ;;
    match err with
    | Some err =>
      if error_eqb err ErrTaskNotFound
      then JSON StatusNotFound (JSONError "task not found")
      else JSON StatusInternalServerError (JSONError "failed to delete task")
    | None => JSON StatusNoContent NoBody
    end
  end.

End Handler.

End handler.

(** *** A recording repository

    What a test double of the repository interface does: every call is
    appended to a log and passed on to the repository behind it.  The use
    cases do not know of the log; it is how the proofs count the calls. *)

Module spy.
Import domain.

Inductive Call : Type :=
| CallCreate (t : Task)
| CallGetByID (id : Z)
| CallGetAll
| CallUpdate (t : Task)
| CallDelete (id : Z).

Definition Spied (W : Type) : Type := (W * list Call)%type.

Definition logged {W A : Type} (c : Call) (m : M W A) : M (Spied W) A :=
  fun s => let (a, w') := m (fst s) in (a, (w', (snd s ++ [c])%list)).

Definition unlogged {W A : Type} (m : M W A) : M (Spied W) A :=
  fun s => let (a, w') := m (fst s) in (a, (w', snd s)).

#[export] Instance SpyRepository {W : Type} {R : TaskRepository W}
  : TaskRepository (Spied W) := {
  Create t := logged (CallCreate t) (Create t);
  GetByID id := logged (CallGetByID id) (GetByID id);
  GetAll := logged CallGetAll GetAll;
  Update t := logged (CallUpdate t) (Update t);
  Delete id := logged (CallDelete id) (Delete id)
}.

#[export] Instance SpyClock {W : Type} {K : Clock W} : Clock (Spied W) := {
  time_Now := unlogged time_Now
}.

Definition is_Create (c : Call) : bool :=
  match c with CallCreate _ => true | _ => false end.


(** How many calls of a kind a log holds. *)
Definition calls (kind : Call -> bool) (log : list Call) : nat :=
  List.length (List.filter kind log).

End spy.

(** *** A world to run the examples in

    A clock that ticks at every reading, a table of tasks in memory, and a
    request whose body is already decoded. *)

Module memory.
Import domain.

Record Mem : Type := {
  mem_clock : time;
  mem_next : Z;
  mem_rows : list Task
}.

Definition with_ID (t : Task) (id : Z) : Task :=
  {| ID := id; Title := Title t; Description := Description t;
     Completed := Completed t; CreatedAt := CreatedAt t; UpdatedAt := UpdatedAt t |}.

Definition no_rows : error := errors_New "sql: no rows in result set".

#[export] Instance MemClock : Clock Mem := {
  time_Now := fun m =>
    (mem_clock m,
     {| mem_clock := mem_clock m + 1; mem_next := mem_next m; mem_rows := mem_rows m |})
}.

#[export] Instance MemRepository : TaskRepository Mem := {
  Create t := fun m =>
    let t' := with_ID t (mem_next m) in
    ((None, t'),
     {| mem_clock := mem_clock m; mem_next := mem_next m + 1;
        mem_rows := (mem_rows m ++ [t'])%list |});
  GetByID id := fun m =>
    match List.find (fun t => ID t =? id) (mem_rows m) with
    | Some t => (inl t, m)
    | None => (inr no_rows, m)
    end;
  GetAll := fun m => ((mem_rows m, None), m);
  Update t := fun m =>
    ((None, t),
     {| mem_clock := mem_clock m; mem_next := mem_next m;
        mem_rows := List.map (fun r => if ID r =? ID t then t else r) (mem_rows m) |});
  Delete id := fun m =>
    (None,
     {| mem_clock := mem_clock m; mem_next := mem_next m;
        mem_rows := List.filter (fun r => negb (ID r =? id)) (mem_rows m) |})
}.

Record Request : Type := {
  request_id : string;
  request_create : handler.CreateTaskRequest + error;
  request_update : handler.UpdateTaskRequest + error
}.

#[export] Instance RequestContext : handler.Context Request := {
  handler.Param c name := if String.eqb name "id" then request_id c else "";
  handler.BindCreate := request_create;
  handler.BindUpdate := request_update
}.

(** Decimal digits, read the way [strconv.ParseInt(s, 10, 64)] reads a
    signed integer that fits 64 bits. *)
Fixpoint digits (s : string) (acc : Z) : option Z :=
  match s with
  | EmptyString => Some acc
  | String c rest =>
    let n := Z.of_nat (nat_of_ascii c) in
    if (48 <=? n) && (n <=? 57) then digits rest (10 * acc + (n - 48)) else None
  end.

Definition ParseInt (s : string) (base bitSize : Z) : Z + error :=
  let syntax := errors_New "strconv.ParseInt: invalid syntax" in
  let range := errors_New "strconv.ParseInt: value out of range" in
  let unsigned (neg : bool) (body : string) :=
    match body with
    | EmptyString => inr syntax
    | _ =>
      match digits body 0 with
      | None => inr syntax
      | Some n =>
        let v := if neg then - n else n in
        if (- 2 ^ (bitSize - 1) <=? v) && (v <? 2 ^ (bitSize - 1)) then inl v else inr range
      end
    end in
  match s with
  | EmptyString => inr syntax
  | String c rest =>
    if Ascii.eqb c "-" then unsigned true rest
    else if Ascii.eqb c "+" then unsigned false rest
    else unsigned false s
  end.

Definition Format (t : time) (layout : string) : string := layout.

End memory.

End CleanArch.

(** ** ddd-example: the product aggregate and the pricing service *)

Module DDD.
Import Float64.

(** *** package model *)

Module model.

Record ProductID : Type := { ProductID_value : string }.

Record Money : Type := { amount : float64; currency : string }.

(** The zero value [Money{}]. *)
Definition Money_zero : Money := {| amount := zero; currency := "" |}.

Definition NewMoney (amount : float64) (currency : string) : Money * option error :=
  if ltb amount zero
  then (Money_zero, Some (errors_New "money amount cannot be negative"))
  else ({| amount := amount; currency := currency |}, None).

Definition Amount (m : Money) : float64 := amount m.
Definition Currency (m : Money) : string := currency m.

Record Category : Type := { Category_name : string }.

Record Product : Type := {
  id : ProductID;
  name : string;
  description : string;
  price : Money;
  category : Category;
  createdAt : time;
  updatedAt : time
}.

Definition Price (p : Product) : Money := price p.
Definition UpdatedAt (p : Product) : time := updatedAt p.

Section Methods.
Context {W : Type} {clock : Clock W}.

(** [(p *Product) ChangePrice]: the error, and [p] after the call. *)
Definition ChangePrice (p : Product) (newPrice : Money) : M W (option error * Product) :=
  if leb (amount newPrice) zero
  then ret (Some (errors_New "price must be positive"), p)
  else
    now <- time_Now ;;
    ret (None, {| id := id p; name := name p; description := description p;
                  price := newPrice; category := category p;
                  createdAt := createdAt p; updatedAt := now |}).

Definition UpdateInfo (p : Product) (name description : string)
  : M W (option error * Product) :=
  if String.eqb name ""
  then ret (Some (errors_New "product name cannot be empty"), p)
  else
    now <- time_Now ;;
    ret (None, {| id := id p; name := name; description := description;
                  price := price p; category := category p;
                  createdAt := createdAt p; updatedAt := now |}).

End Methods.

End model.

(** *** package service *)

Module service.
Import model.

Section PricingService.
Context {W : Type} {clock : Clock W}.

(** [(s *PricingService) ApplyDiscount]: the error, and the product the
    pointer designates after the call.  Every operation is rounded on its
    own.  (A Go implementation may fuse the product and the difference into
    one operation; where the product is exact, as for a discount of 100,
    the fused result is the same.) *)
Definition ApplyDiscount (product : Product) (discountPercent : float64)
  : M W (option error * Product) :=
  if ltb discountPercent zero || gtb discountPercent hundred
  then ret (Some (errors_New "discount must be between 0 and 100"), product)
  else
    let currentPrice := Price product in
    let discountAmount := mul (Amount currentPrice) (div discountPercent hundred) in
    let newAmount := sub (Amount currentPrice) discountAmount in
    let (newPrice, err) := NewMoney newAmount (Currency currentPrice) in
    match err with
    | Some err => ret (Some err, product)
    | None => ChangePrice product newPrice
    end.

End PricingService.

End service.

End DDD.

(** A clock on its own: the world of the domain methods, which only read
    the time. *)
Module ticking.

Definition Ticks : Type := Z.

#[export] Instance TickClock : Clock Ticks := {
  time_Now := fun n => (n, n + 1)
}.

End ticking.

(** ** integration-example: the order service *)

Module Integration.
Import Float64.

(** *** package order *)

Module order.

Record OrderID : Type := { OrderID_value : string }.
Definition OrderID_String (id : OrderID) : string := OrderID_value id.

(** The zero value [OrderID{}]. *)
Definition OrderID_zero : OrderID := {| OrderID_value := "" |}.

Record CustomerID : Type := { CustomerID_value : string }.
Definition NewCustomerID (value : string) : CustomerID := {| CustomerID_value := value |}.
Definition CustomerID_String (id : CustomerID) : string := CustomerID_value id.

Record Money : Type := { amount : float64; currency : string }.

(** The zero value [Money{}]. *)
Definition Money_zero : Money := {| amount := zero; currency := "" |}.

Definition NewMoney (amount : float64) (currency : string) : Money * option error :=
  if ltb amount zero
  then (Money_zero, Some (errors_New "amount cannot be negative"))
  else
    let currency := if String.eqb currency "" then "USD" else currency in
    ({| amount := amount; currency := currency |}, None).

Definition Amount (m : Money) : float64 := amount m.
Definition Currency (m : Money) : string := currency m.

Definition Add (m other : Money) : Money * option error :=
  if negb (String.eqb (currency m) (currency other))
  then (Money_zero, Some (errors_New "currency mismatch"))
  else NewMoney (add (amount m) (amount other)) (currency m).

Definition OrderStatus : Type := string.
Definition OrderStatusPending : OrderStatus := "PENDING".
Definition OrderStatusPaid : OrderStatus := "PAID".
Definition OrderStatusShipped : OrderStatus := "SHIPPED".
Definition OrderStatusDelivered : OrderStatus := "DELIVERED".
Definition OrderStatusCancelled : OrderStatus := "CANCELLED".

Record OrderItem : Type := {
  productID : string;
  productName : string;
  quantity : Z;
  price : Money
}.

Definition NewOrderItem (productID productName : string) (quantity : Z) (price : Money)
  : OrderItem + error :=
  if quantity <=? 0
  then inr (errors_New "quantity must be positive")
  else inl {| productID := productID; productName := productName;
              quantity := quantity; price := price |}.

(** [(i *OrderItem) Total]: the error of [NewMoney] is dropped. *)
Definition Total (i : OrderItem) : Money :=
  fst (NewMoney (mul (Amount (price i)) (of_Z (quantity i))) (Currency (price i))).

Record Order : Type := {
  id : OrderID;
  customerID : CustomerID;
  items : list OrderItem;
  totalAmount : Money;
  status : OrderStatus;
  createdAt : time;
  updatedAt : time
}.

Definition ID (o : Order) : OrderID := id o.
Definition TotalAmount (o : Order) : Money := totalAmount o.
Definition Status (o : Order) : OrderStatus := status o.

(** The assignments [o.status = s; o.updatedAt = now]. *)
Definition transition (o : Order) (s : OrderStatus) (now : time) : Order :=
  {| id := id o; customerID := customerID o; items := items o;
     totalAmount := totalAmount o; status := s;
     createdAt := createdAt o; updatedAt := now |}.

(** The loop of [NewOrder] over the items. *)
Fixpoint add_totals (total : Money) (items : list OrderItem) : Money + error :=
  match items with
  | [] => inl total
  | item :: rest =>
    let itemTotal := Total item in
    let (total, err) := Add total itemTotal in
    match err with
    | Some err => inr err
    | None => add_totals total rest
    end
  end.

(** The [Money] values the package hands out: the zero value (also what
    [NewMoney] and [Add] return beside an error), the results of [NewMoney]
    and of [Add] on values handed out before, and the total of an item whose
    price is such a value. *)
Inductive produced : Money -> Prop :=
| produced_zero : produced Money_zero
| produced_NewMoney (a : float64) (c : string) : produced (fst (NewMoney a c))
| produced_Add (m other : Money) :
    produced m -> produced other -> produced (fst (Add m other))
| produced_Total (i : OrderItem) : produced (price i) -> produced (Total i).

(** [uuid.New().String()]. *)
Class Uuid (W : Type) : Type := { uuid_New : M W string }.

(** The repository interface of the domain layer; pointers as in
    [CleanArch.domain.TaskRepository]. *)
Class OrderRepository (W : Type) : Type := {
  Save : Order -> M W (option error * Order);
  FindByID : OrderID -> M W (Order + error);
  FindByCustomerID : CustomerID -> M W (list Order * option error);
  Update : Order -> M W (option error * Order)
}.

Section Aggregate.
Context {W : Type} {clock : Clock W}.

Definition NewOrderID {uuid : Uuid W} : M W OrderID :=
  s <- uuid_New ;; ret {| OrderID_value := s |}.

Definition NewOrder {uuid : Uuid W} (customerID : CustomerID) (items : list OrderItem)
  : M W (Order + error) :=
  if Z.of_nat (List.length items) =? 0
  then ret (inr (errors_New "order must have at least one item"))
  else
    let (total, err) := NewMoney zero "USD" in
    match err with
    | Some err => ret (inr err)
    | None =>
      match add_totals total items with
      | inr err => ret (inr err)
      | inl total =>
        now <- time_Now ;;
        id <- NewOrderID ;;
        ret (inl {| id := id; customerID := customerID; items := items;
                    totalAmount := total; status := OrderStatusPending;
                    createdAt := now; updatedAt := now |})
      end
    end.

(** The methods with a pointer receiver: the error, and the order after
    the call. *)
Definition MarkAsPaid (o : Order) : M W (option error * Order) :=
  if negb (String.eqb (status o) OrderStatusPending)
  then ret (Some (errors_New "only pending orders can be marked as paid"), o)
  else
    now <- time_Now ;;
    ret (None, transition o OrderStatusPaid now).

Definition Ship (o : Order) : M W (option error * Order) :=
  if negb (String.eqb (status o) OrderStatusPaid)
  then ret (Some (errors_New "only paid orders can be shipped"), o)
  else
    now <- time_Now ;;
    ret (None, transition o OrderStatusShipped now).

Definition Cancel (o : Order) : M W (option error * Order) :=
  if String.eqb (status o) OrderStatusShipped || String.eqb (status o) OrderStatusDelivered
  then ret (Some (errors_New "cannot cancel shipped or delivered orders"), o)
  else
    now <- time_Now ;;
    ret (None, transition o OrderStatusCancelled now).

(** A history of an order under its domain methods: whatever a method
    answers, the next one is called on the order as it was left. *)
Inductive Method : Type := DoMarkAsPaid | DoShip | DoCancel.

Definition call (m : Method) (o : Order) : M W (option error * Order) :=
  match m with
  | DoMarkAsPaid => MarkAsPaid o
  | DoShip => Ship o
  | DoCancel => Cancel o
  end.

Fixpoint history (ms : list Method) (o : Order) : M W Order :=
  match ms with
  | [] => ret o
  | m :: rest => ' (_, o) <- call m o ;; history rest o
  end.

End Aggregate.

(** Domain events. *)
Record OrderCreatedEvent : Type := {
  created_OrderID : string;
  created_CustomerID : string;
  created_Total : float64
}.

Record OrderPaidEvent : Type := {
  paid_OrderID : string;
  paid_PaymentMethod : string;
  paid_Amount : float64
}.

Record OrderShippedEvent : Type := {
  shipped_OrderID : string;
  shipped_TrackingNumber : string
}.

End order.

(** *** package patterns *)

Module patterns.

(** The [interface{}] of an event holds one of the domain events. *)
Inductive EventData : Type :=
| OrderCreated (e : order.OrderCreatedEvent)
| OrderPaid (e : order.OrderPaidEvent)
| OrderShipped (e : order.OrderShippedEvent).

Record Event : Type := { Event_Type : string; Event_Data : EventData }.

(** An observer is its [OnEvent] method. *)
Definition EventObserver (W : Type) : Type := Event -> M W unit.

Record EventPublisher (W : Type) : Type := { observers : list (EventObserver W) }.
Arguments observers {W} _.

Definition NewEventPublisher {W : Type} : EventPublisher W := {| observers := [] |}.

Definition Subscribe {W : Type} (p : EventPublisher W) (observer : EventObserver W)
  : EventPublisher W :=
  {| observers := (observers p ++ [observer])%list |}.

Fixpoint notify {W : Type} (obs : list (EventObserver W)) (event : Event) : M W unit :=
  match obs with
  | [] => ret tt
  | observer :: rest => _ <- observer event ;; notify rest event
  end.

Definition Publish {W : Type} (p : EventPublisher W) (event : Event) : M W unit :=
  notify (observers p) event.

(** The payment strategies the factory builds. *)
Inductive PaymentStrategy : Type := CreditCardPayment | PayPalPayment | CryptoPayment.

Definition ProcessPayment (s : PaymentStrategy) (amount : float64) (orderID : string)
  : option error :=
  match s with
  | CreditCardPayment => None
  | PayPalPayment => None
  | CryptoPayment => None
  end.

Definition GetName (s : PaymentStrategy) : string :=
  match s with
  | CreditCardPayment => "Credit Card"
  | PayPalPayment => "PayPal"
  | CryptoPayment => "Cryptocurrency"
  end.

Definition CreatePayment (paymentType : string) : PaymentStrategy + error :=
  if String.eqb paymentType "credit_card" then inl CreditCardPayment
  else if String.eqb paymentType "paypal" then inl PayPalPayment
  else if String.eqb paymentType "crypto" then inl CryptoPayment
  else inr (errors_New "unsupported payment type").

End patterns.

(** *** package usecase *)

Module usecase.
Import order.

Record OrderItemDTO : Type := {
  dto_ProductID : string;
  dto_ProductName : string;
  dto_Quantity : Z;
  dto_Price : float64;
  dto_Currency : string
}.

Record CreateOrderDTO : Type := {
  dto_CustomerID : string;
  dto_Items : list OrderItemDTO
}.

(** The use case holds the repository (the instance [orderRepo]), the
    payment factory, which has no state, and the event publisher. *)
Record OrderUseCase (W : Type) : Type := {
  eventPublisher : patterns.EventPublisher W
}.
Arguments eventPublisher {W} _.

(** The loop of [CreateOrder] over the DTOs. *)
Fixpoint convert_items (dtos : list OrderItemDTO) (items : list OrderItem)
  : list OrderItem + error :=
  match dtos with
  | [] => inl items
  | itemDTO :: rest =>
    let (price, err) := NewMoney (dto_Price itemDTO) (dto_Currency itemDTO) in
    match err with
    | Some err => inr err
    | None =>
      match NewOrderItem (dto_ProductID itemDTO) (dto_ProductName itemDTO)
                         (dto_Quantity itemDTO) price with
      | inr err => inr err
      | inl item => convert_items rest (items ++ [item])%list
      end
    end
  end.

Section UseCase.
Context {W : Type} {clock : Clock W} {uuid : Uuid W} {orderRepo : OrderRepository W}.
Variable uc : OrderUseCase W.

Definition CreateOrder (dto : CreateOrderDTO) : M W (Order + error) :=
  let customerID := NewCustomerID (dto_CustomerID dto) in
  match convert_items (dto_Items dto) [] with
  | inr err => ret (inr err)
  | inl items =>
    r <- NewOrder customerID items ;;
    match r with
    | inr err => ret (inr err)
    | inl newOrder =>
      ' (err, newOrder) <- Save newOrder ;;
      match err with
      | Some err => ret (inr err)
      | None =>
        _ <- patterns.Publish (eventPublisher uc)
               {| patterns.Event_Type := "OrderCreated";
                  patterns.Event_Data := patterns.OrderCreated
                    {| created_OrderID := OrderID_String (ID newOrder);
                       created_CustomerID := CustomerID_String (order.customerID newOrder);
                       created_Total := Amount (TotalAmount newOrder) |} |} ;;
        ret (inl newOrder)
      end
    end
  end.

Definition ProcessPayment (orderID paymentMethod : string) : M W (option error) :=
  r <- FindByID OrderID_zero ;;
  match r with
  | inr err => ret (Some err)
  | inl ord =>
    match patterns.CreatePayment paymentMethod with
    | inr err => ret (Some err)
    | inl paymentStrategy =>
      match patterns.ProcessPayment paymentStrategy (Amount (TotalAmount ord))
                                    (OrderID_String (ID ord)) with
      | Some err => ret (Some err)
      | None =>
        ' (err, ord) <- MarkAsPaid ord ;;
        match err with
        | Some err => ret (Some err)
        | None =>
          ' (err, ord) <- Update ord ;;
          match err with
          | Some err => ret (Some err)
          | None =>
            _ <- patterns.Publish (eventPublisher uc)
                   {| patterns.Event_Type := "OrderPaid";
                      patterns.Event_Data := patterns.OrderPaid
                        {| paid_OrderID := OrderID_String (ID ord);
                           paid_PaymentMethod := patterns.GetName paymentStrategy;
                           paid_Amount := Amount (TotalAmount ord) |} |} ;;
            ret None
          end
        end
      end
    end
  end.

Definition GetOrder (orderID : string) : M W (Order + error) :=
  FindByID OrderID_zero.

Definition GetCustomerOrders (customerID : string) : M W (list Order * option error) :=
  FindByCustomerID (NewCustomerID customerID).

Definition ShipOrder (orderID trackingNumber : string) : M W (option error) :=
  r <- FindByID OrderID_zero ;;
  match r with
  | inr err => ret (Some err)
  | inl ord =>
    ' (err, ord) <- Ship ord ;;
    match err with
    | Some err => ret (Some err)
    | None =>
      ' (err, ord) <- Update ord ;;
      match err with
      | Some err => ret (Some err)
      | None =>
        _ <- patterns.Publish (eventPublisher uc)
               {| patterns.Event_Type := "OrderShipped";
                  patterns.Event_Data := patterns.OrderShipped
                    {| shipped_OrderID := OrderID_String (ID ord);
                       shipped_TrackingNumber := trackingNumber |} |} ;;
        ret None
      end
    end
  end.

End UseCase.

End usecase.

(** *** A recording repository, as for the task service *)

Module spy.
Import order.

Inductive Call : Type :=
| CallSave (o : Order)
| CallFindByID (id : OrderID)
| CallFindByCustomerID (c : CustomerID)
| CallUpdate (o : Order).

Definition Spied (W : Type) : Type := (W * list Call)%type.

Definition logged {W A : Type} (c : Call) (m : M W A) : M (Spied W) A :=
  fun s => let (a, w') := m (fst s) in (a, (w', (snd s ++ [c])%list)).

Definition unlogged {W A : Type} (m : M W A) : M (Spied W) A :=
  fun s => let (a, w') := m (fst s) in (a, (w', snd s)).

#[export] Instance SpyRepository {W : Type} {R : OrderRepository W}
  : OrderRepository (Spied W) := {
  Save o := logged (CallSave o) (Save o);
  FindByID id := logged (CallFindByID id) (FindByID id);
  FindByCustomerID c := logged (CallFindByCustomerID c) (FindByCustomerID c);
  Update o := logged (CallUpdate o) (Update o)
}.

#[export] Instance SpyClock {W : Type} {K : Clock W} : Clock (Spied W) := {
  time_Now := unlogged time_Now
}.

(** The use case over the recording world: its observers act on the world
    behind the log. *)
Definition spied {W : Type} (uc : usecase.OrderUseCase W) : usecase.OrderUseCase (Spied W) :=
  {| usecase.eventPublisher :=
       {| patterns.observers :=
            List.map (fun (ob : patterns.EventObserver W) event => unlogged (ob event))
                     (patterns.observers (usecase.eventPublisher uc)) |} |}.

Definition is_FindByID (c : Call) : bool :=
  match c with CallFindByID _ => true | _ => false end.

End spy.

(** *** A world to run the examples in: a clock and a table of orders *)

Module memory.
Import order.

Record Mem : Type := {
  mem_clock : time;
  mem_rows : list Order;
  mem_events : list patterns.Event
}.

#[export] Instance MemClock : Clock Mem := {
  time_Now := fun m =>
    (mem_clock m,
     {| mem_clock := mem_clock m + 1; mem_rows := mem_rows m; mem_events := mem_events m |})
}.

Definition no_rows : error := errors_New "sql: no rows in result set".

#[export] Instance MemRepository : OrderRepository Mem := {
  Save o := fun m =>
    ((None, o),
     {| mem_clock := mem_clock m; mem_rows := (mem_rows m ++ [o])%list;
        mem_events := mem_events m |});
  FindByID i := fun m =>
    match List.find (fun o => String.eqb (OrderID_value (id o)) (OrderID_value i))
                    (mem_rows m) with
    | Some o => (inl o, m)
    | None => (inr no_rows, m)
    end;
  FindByCustomerID c := fun m =>
    ((List.filter (fun o => String.eqb (CustomerID_value (customerID o)) (CustomerID_value c))
                  (mem_rows m), None), m);
  Update o := fun m =>
    ((None, o),
     {| mem_clock := mem_clock m;
        mem_rows := List.map (fun r => if String.eqb (OrderID_value (id r)) (OrderID_value (id o))
                                       then o else r) (mem_rows m);
        mem_events := mem_events m |})
}.

(** An observer that keeps the events it is told of. *)
Definition recorder : patterns.EventObserver Mem :=
  fun event m =>
    (tt, {| mem_clock := mem_clock m; mem_rows := mem_rows m;
            mem_events := (mem_events m ++ [event])%list |}).

Definition service : usecase.OrderUseCase Mem :=
  {| usecase.eventPublisher := patterns.Subscribe patterns.NewEventPublisher recorder |}.

End memory.

End Integration.

(** ** Concrete inputs the examples below run on *)

Module examples.
Import Float64.

Definition usd (a : float64) : DDD.model.Money :=
  {| DDD.model.amount := a; DDD.model.currency := "USD" |}.

Definition product_priced (a : float64) : DDD.model.Product :=
  {| DDD.model.id := {| DDD.model.ProductID_value := "p-1" |};
     DDD.model.name := "Laptop";
     DDD.model.description := "";
     DDD.model.price := usd a;
     DDD.model.category := {| DDD.model.Category_name := "Electronics" |};
     DDD.model.createdAt := 0;
     DDD.model.updatedAt := 0 |}.

(** A product that costs 80, and one whose price is [+Inf], which
    [model.NewMoney] accepts. *)
Definition laptop : DDD.model.Product := product_priced (of_Z 80).
Definition priceless : DDD.model.Product := product_priced pos_inf.

(** A title of [n] letters. *)
Fixpoint letters (n : nat) : string :=
  match n with
  | O => EmptyString
  | S n => String "a" (letters n)
  end.

Definition groceries : CleanArch.domain.Task :=
  {| CleanArch.domain.ID := 42;
     CleanArch.domain.Title := "Buy milk";
     CleanArch.domain.Description := "";
     CleanArch.domain.Completed := false;
     CleanArch.domain.CreatedAt := 3;
     CleanArch.domain.UpdatedAt := 3 |}.

(** A store that holds the one task, at tick 10. *)
Definition pantry : CleanArch.memory.Mem :=
  {| CleanArch.memory.mem_clock := 10;
     CleanArch.memory.mem_next := 43;
     CleanArch.memory.mem_rows := [groceries] |}.


(** [PUT /tasks/:id] and [DELETE /tasks/:id] with a well-formed body. *)
Definition request_for (id : string) : CleanArch.memory.Request :=
  {| CleanArch.memory.request_id := id;
     CleanArch.memory.request_create := inr (errors_New "unexpected end of JSON input");
     CleanArch.memory.request_update :=
       inl {| CleanArch.handler.req_Title := "Buy oat milk";
              CleanArch.handler.req_Description := "2 litres";
              CleanArch.handler.req_Completed := true |} |}.

Definition dollars (n : Z) : Integration.order.Money :=
  {| Integration.order.amount := of_Z n; Integration.order.currency := "USD" |}.

Definition order_in (s : Integration.order.OrderStatus) : Integration.order.Order :=
  {| Integration.order.id := {| Integration.order.OrderID_value := "order-1" |};
     Integration.order.customerID := Integration.order.NewCustomerID "customer-123";
     Integration.order.items :=
       [ {| Integration.order.productID := "product-1";
            Integration.order.productName := "Laptop";
            Integration.order.quantity := 1;
            Integration.order.price := dollars 999 |} ];
     Integration.order.totalAmount := dollars 999;
     Integration.order.status := s;
     Integration.order.createdAt := 0;
     Integration.order.updatedAt := 0 |}.

(** A store that holds one pending order, whose id is ["order-1"]. *)
Definition orders : Integration.memory.Mem :=
  {| Integration.memory.mem_clock := 10;
     Integration.memory.mem_rows := [order_in "PENDING"];
     Integration.memory.mem_events := [] |}.

End examples.

(** ** clean-architecture-example: the rest of package handler *)

Module CleanArchRest.
Import CleanArch.domain CleanArch.handler.

Section Handler.
Context {W : Type} {clock : Clock W} {taskRepo : TaskRepository W}.
Context {C : Type} {echo : Context C}.
Variable time_Format : time -> string -> string.

(** The loop over the tasks fills one response per task, in order. *)
Definition GetAllTasks (c : C) : M W Response :=
  ' (tasks, err) <- CleanArch.usecase.GetAllTasks ;;
  match err with
  | Some _ => JSON StatusInternalServerError (JSONError "failed to retrieve tasks")
  | None => JSON StatusOK (JSONTasks (List.map (toResponse time_Format) tasks))
  end.

End Handler.

End CleanArchRest.

(** ** integration-example: the repository and the handlers *)

Module IntegrationInfra.
Import Float64 Integration.order.

(** *** package repository *)

Module repository.

(** The arguments of a statement. *)
Inductive SQLValue : Type :=
| Text (s : string)
| Blob (b : string)
| Real (x : float64)
| Timestamp (t : time).

(** [(db *sqlx.DB) Exec(query, args...)], as far as the repository uses
    it: the error (the [sql.Result] is dropped). *)
Class DB (W : Type) : Type := { Exec : string -> list SQLValue -> M W (option error) }.

(** [sql.ErrNoRows]. *)
Definition sql_ErrNoRows : error := errors_New "sql: no rows in result set".

(** The statements, up to white space. *)
Definition insert_order : string :=
  "INSERT INTO orders (id, customer_id, items, total_amount, currency, status, created_at, updated_at) VALUES (?, ?, ?, ?, ?, ?, ?, ?)".

Definition update_order : string :=
  "UPDATE orders SET status = ?, updated_at = ? WHERE id = ?".

Section OrderRepositoryImpl.
Context {W : Type} {db : DB W}.
(** [json.Marshal] of the items; its error is dropped. *)
Variable json_Marshal : list OrderItem -> string.

Definition Save (ord : Order) : M W (option error * Order) :=
  let itemsJSON := json_Marshal (items ord) in
  err <- Exec insert_order
           [ Text (OrderID_String (ID ord));
             Text (CustomerID_String (customerID ord));
             Blob itemsJSON;
             Real (Amount (TotalAmount ord));
             Text (Currency (TotalAmount ord));
             Text (Status ord);
             Timestamp (createdAt ord);
             Timestamp (updatedAt ord) ] ;;
  ret (err, ord).

Definition FindByID (id : OrderID) : M W (Order + error) :=
  ret (inr sql_ErrNoRows).

Definition FindByCustomerID (customerID : CustomerID) : M W (list Order * option error) :=
  ret ([], None).

Definition Update (ord : Order) : M W (option error * Order) :=
  err <- Exec update_order
           [ Text (Status ord); Timestamp (updatedAt ord);
             Text (OrderID_String (ID ord)) ] ;;
  ret (err, ord).

Definition NewOrderRepository : OrderRepository W :=
  {| Integration.order.Save := Save;
     Integration.order.FindByID := FindByID;
     Integration.order.FindByCustomerID := FindByCustomerID;
     Integration.order.Update := Update |}.

End OrderRepositoryImpl.

End repository.

(** *** package handler *)

Module handler.

Record OrderItemRequest : Type := {
  item_ProductID : string;
  item_ProductName : string;
  item_Quantity : Z;
  item_Price : float64;
  item_Currency : string
}.

Record CreateOrderRequest : Type := {
  req_CustomerID : string;
  req_Items : list OrderItemRequest
}.

Record ProcessPaymentRequest : Type := { req_PaymentMethod : string }.

(** What a handler writes with [c.JSON]. *)
Inductive Body : Type :=
| JSONError (msg : string)
| JSONMessage (msg : string)
| JSONOrder (id customer_id : string) (total : float64) (currency : string)
            (status : OrderStatus).

Record Response : Type := { Status : Z; Payload : Body }.

Definition StatusOK : Z := 200.
Definition StatusCreated : Z := 201.
Definition StatusBadRequest : Z := 400.
Definition StatusNotFound : Z := 404.

Class Context (C : Type) : Type := {
  Param : C -> string -> string;
  BindCreateOrder : C -> CreateOrderRequest + error;
  BindProcessPayment : C -> ProcessPaymentRequest + error
}.

Definition order_body (o : Order) : Body :=
  JSONOrder (OrderID_String (ID o)) (CustomerID_String (customerID o))
            (Amount (TotalAmount o)) (Currency (TotalAmount o)) (Integration.order.Status o).

Section OrderHandler.
Context {W : Type} {clock : Clock W} {uuid : Uuid W} {orderRepo : OrderRepository W}.
Context {C : Type} {echo : Context C}.
Variable orderUseCase : Integration.usecase.OrderUseCase W.

Definition JSON (status : Z) (body : Body) : M W Response :=
  ret {| Status := status; Payload := body |}.

Definition CreateOrder (c : C) : M W Response :=
  match BindCreateOrder c with
  | inr _ => JSON StatusBadRequest (JSONError "invalid request")
  | inl req =>
    let dto :=
      {| Integration.usecase.dto_CustomerID := req_CustomerID req;
         Integration.usecase.dto_Items :=
           List.map (fun item =>
                       {| Integration.usecase.dto_ProductID := item_ProductID item;
                          Integration.usecase.dto_ProductName := item_ProductName item;
                          Integration.usecase.dto_Quantity := item_Quantity item;
                          Integration.usecase.dto_Price := item_Price item;
                          Integration.usecase.dto_Currency := item_Currency item |})
                    (req_Items req) |} in
    r <- Integration.usecase.CreateOrder orderUseCase dto ;;
    match r with
    | inr err => JSON StatusBadRequest (JSONError (Error err))
    | inl order => JSON StatusCreated (order_body order)
    end
  end.

Definition ProcessPayment (c : C) : M W Response :=
  let orderID := Param c "id" in
  match BindProcessPayment c with
  | inr _ => JSON StatusBadRequest (JSONError "invalid request")
  | inl req =>
    err <- Integration.usecase.ProcessPayment orderUseCase orderID (req_PaymentMethod req) ;;
    match err with
    | Some err => JSON StatusBadRequest (JSONError (Error err))
    | None => JSON StatusOK (JSONMessage "payment processed")
    end
  end.

Definition GetOrder (c : C) : M W Response :=
  let orderID := Param c "id" in
  r <- Integration.usecase.GetOrder orderID ;;
  match r with
  | inr _ => JSON StatusNotFound (JSONError "order not found")
  | inl order => JSON StatusOK (order_body order)
  end.

End OrderHandler.

End handler.

(** The id source behind the log of the recording repository. *)
#[export] Instance SpyUuid {W : Type} {U : Uuid W} : Uuid (Integration.spy.Spied W) := {
  uuid_New := Integration.spy.unlogged uuid_New
}.

End IntegrationInfra.

(** ** ddd-example: the rest of package model, the repository interface and
       the application service *)

Module DDDRest.
Import Float64 DDD.model.

(** *** package model *)

Module model.

(** The zero value [Category{}]. *)
Definition Category_zero : Category := {| Category_name := "" |}.

Definition NewCategory (name : string) : Category * option error :=
  if String.eqb name ""
  then (Category_zero, Some (errors_New "category name cannot be empty"))
  else ({| Category_name := name |}, None).

Section Products.
(** [uuid.New().String()] is read from the same class as in the order
    service. *)
Context {W : Type} {clock : Clock W} {uuid : Integration.order.Uuid W}.

Definition NewProductID : M W ProductID :=
  s <- Integration.order.uuid_New ;; ret {| ProductID_value := s |}.

Definition NewProduct (name description : string) (price : Money) (category : Category)
  : M W (Product + error) :=
  if String.eqb name ""
  then ret (inr (errors_New "product name cannot be empty"))
  else
    now <- time_Now ;;
    id <- NewProductID ;;
    ret (inl {| id := id; name := name; description := description; price := price;
                category := category; createdAt := now; updatedAt := now |}).

End Products.

End model.

(** *** package repository *)

Module repository.

(** The repository interface; pointers as in
    [CleanArch.domain.TaskRepository]. *)
Class ProductRepository (W : Type) : Type := {
  Save : Product -> M W (option error * Product);
  FindByID : ProductID -> M W (Product + error);
  FindAll : M W (list Product * option error);
  Delete : ProductID -> M W (option error)
}.

End repository.

(** *** package application *)

Module application.
Import repository.

Record CreateProductDTO : Type := {
  dto_Name : string;
  dto_Description : string;
  dto_Price : float64;
  dto_Currency : string;
  dto_Category : string
}.

Section ProductService.
Context {W : Type} {clock : Clock W} {uuid : Integration.order.Uuid W}.
Context {repo : ProductRepository W}.

Definition CreateProduct (dto : CreateProductDTO) : M W (Product + error) :=
  let (price, err) := NewMoney (dto_Price dto) (dto_Currency dto) in
  match err with
  | Some err => ret (inr err)
  | None =>
    let (category, err) := model.NewCategory (dto_Category dto) in
    match err with
    | Some err => ret (inr err)
    | None =>
      r <- model.NewProduct (dto_Name dto) (dto_Description dto) price category ;;
      match r with
      | inr err => ret (inr err)
      | inl product =>
        ' (err, product) <- Save product ;;
        match err with
        | Some err => ret (inr err)
        | None => ret (inl product)
        end
      end
    end
  end.

Definition ApplyDiscountToProduct (productID : ProductID) (discount : float64)
  : M W (option error) :=
  r <- FindByID productID ;;
  match r with
  | inr err => ret (Some err)
  | inl product =>
    ' (err, product) <- DDD.service.ApplyDiscount product discount ;;
    match err with
    | Some err => ret (Some err)
    | None => ' (err, _) <- Save product ;; ret err
    end
  end.

Definition GetProduct (id : ProductID) : M W (Product + error) := FindByID id.

Definition GetAllProducts : M W (list Product * option error) := FindAll.

End ProductService.

End application.

(** *** A recording repository, as for the task service *)

Module spy.
Import repository.

Inductive Call : Type :=
| CallSave (p : Product)
| CallFindByID (id : ProductID)
| CallFindAll
| CallDelete (id : ProductID).

Definition Spied (W : Type) : Type := (W * list Call)%type.

Definition logged {W A : Type} (c : Call) (m : M W A) : M (Spied W) A :=
  fun s => let (a, w') := m (fst s) in (a, (w', (snd s ++ [c])%list)).

Definition unlogged {W A : Type} (m : M W A) : M (Spied W) A :=
  fun s => let (a, w') := m (fst s) in (a, (w', snd s)).

#[export] Instance SpyRepository {W : Type} {R : ProductRepository W}
  : ProductRepository (Spied W) := {
  Save p := logged (CallSave p) (Save p);
  FindByID id := logged (CallFindByID id) (FindByID id);
  FindAll := logged CallFindAll FindAll;
  Delete id := logged (CallDelete id) (Delete id)
}.

#[export] Instance SpyClock {W : Type} {K : Clock W} : Clock (Spied W) := {
  time_Now := unlogged time_Now
}.

#[export] Instance SpyUuid {W : Type} {U : Integration.order.Uuid W}
  : Integration.order.Uuid (Spied W) := {
  Integration.order.uuid_New := unlogged Integration.order.uuid_New
}.

End spy.

(** *** A catalogue in memory, to run the examples in *)

Module memory.
Import repository.

Record Shelf : Type := {
  shelf_clock : time;
  shelf_products : list Product
}.

#[export] Instance ShelfClock : Clock Shelf := {
  time_Now := fun s =>
    (shelf_clock s, {| shelf_clock := shelf_clock s + 1; shelf_products := shelf_products s |})
}.

#[export] Instance ShelfUuid : Integration.order.Uuid Shelf := {
  Integration.order.uuid_New := fun s => ("7d4f7c30-0000-4000-8000-000000000002", s)
}.

Definition same_id (a b : ProductID) : bool :=
  String.eqb (ProductID_value a) (ProductID_value b).

#[export] Instance ShelfRepository : ProductRepository Shelf := {
  Save p := fun s =>
    ((None, p),
     {| shelf_clock := shelf_clock s;
        shelf_products :=
          (List.filter (fun q => negb (same_id (id q) (id p))) (shelf_products s) ++ [p])%list |});
  FindByID i := fun s =>
    match List.find (fun q => same_id (id q) i) (shelf_products s) with
    | Some p => (inl p, s)
    | None => (inr (errors_New "sql: no rows in result set"), s)
    end;
  FindAll := fun s => ((shelf_products s, None), s);
  Delete i := fun s =>
    (None,
     {| shelf_clock := shelf_clock s;
        shelf_products := List.filter (fun q => negb (same_id (id q) i)) (shelf_products s) |})
}.

End memory.

End DDDRest.

(** ** Characters and bytes *)

Module utf8.



End utf8.

(** ** More worlds and inputs for the runs below *)

Module more_examples.
Import Float64.

(** A source of ids that hands out the same id every time. *)
#[export] Instance TickUuid : Integration.order.Uuid ticking.Ticks := {
  Integration.order.uuid_New := fun n => ("7d4f7c30-0000-4000-8000-000000000001", n)
}.

Definition mouse : Integration.order.OrderItem :=
  {| Integration.order.productID := "product-2";
     Integration.order.productName := "Mouse";
     Integration.order.quantity := 2;
     Integration.order.price := examples.dollars 29 |}.

Definition laptop_item : Integration.order.OrderItem :=
  {| Integration.order.productID := "product-1";
     Integration.order.productName := "Laptop";
     Integration.order.quantity := 1;
     Integration.order.price := examples.dollars 999 |}.

(** The one order the use cases can find: the order whose id is empty. *)
Definition nameless : Integration.order.Order :=
  {| Integration.order.id := Integration.order.OrderID_zero;
     Integration.order.customerID := Integration.order.NewCustomerID "customer-123";
     Integration.order.items := [laptop_item];
     Integration.order.totalAmount := examples.dollars 999;
     Integration.order.status := "PENDING";
     Integration.order.createdAt := 0;
     Integration.order.updatedAt := 0 |}.

Definition nameless_orders : Integration.memory.Mem :=
  {| Integration.memory.mem_clock := 10;
     Integration.memory.mem_rows := [nameless];
     Integration.memory.mem_events := [] |}.

#[export] Instance MemUuid : Integration.order.Uuid Integration.memory.Mem := {
  Integration.order.uuid_New := fun m => ("7d4f7c30-0000-4000-8000-000000000001", m)
}.

Definition two_mice : Integration.usecase.OrderItemDTO :=
  {| Integration.usecase.dto_ProductID := "product-2";
     Integration.usecase.dto_ProductName := "Mouse";
     Integration.usecase.dto_Quantity := 2;
     Integration.usecase.dto_Price := of_Z 29;
     Integration.usecase.dto_Currency := "USD" |}.

Definition no_mice : Integration.usecase.OrderItemDTO :=
  {| Integration.usecase.dto_ProductID := "product-2";
     Integration.usecase.dto_ProductName := "Mouse";
     Integration.usecase.dto_Quantity := 0;
     Integration.usecase.dto_Price := of_Z 29;
     Integration.usecase.dto_Currency := "USD" |}.

Definition basket (items : list Integration.usecase.OrderItemDTO)
  : Integration.usecase.CreateOrderDTO :=
  {| Integration.usecase.dto_CustomerID := "customer-123";
     Integration.usecase.dto_Items := items |}.


Definition shelf : DDDRest.memory.Shelf :=
  {| DDDRest.memory.shelf_clock := 10;
     DDDRest.memory.shelf_products := [examples.laptop] |}.

Definition laptop_id : DDD.model.ProductID := {| DDD.model.ProductID_value := "p-1" |}.

Definition new_product (name category : string) (price : float64)
  : DDDRest.application.CreateProductDTO :=
  {| DDDRest.application.dto_Name := name;
     DDDRest.application.dto_Description := "";
     DDDRest.application.dto_Price := price;
     DDDRest.application.dto_Currency := "USD";
     DDDRest.application.dto_Category := category |}.

Definition post_task (title : string) : CleanArch.memory.Request :=
  {| CleanArch.memory.request_id := "";
     CleanArch.memory.request_create :=
       inl {| CleanArch.handler.req_create_Title := title;
              CleanArch.handler.req_create_Description := "2 litres" |};
     CleanArch.memory.request_update := inr (errors_New "unexpected end of JSON input") |}.

(** A database that keeps the statements it was asked to execute, with a
    clock and an id source, for the repository of the order service. *)
Record Journal : Type := {
  journal_clock : time;
  journal_statements : list (string * list IntegrationInfra.repository.SQLValue)
}.

#[export] Instance JournalClock : Clock Journal := {
  time_Now := fun j =>
    (journal_clock j,
     {| journal_clock := journal_clock j + 1;
        journal_statements := journal_statements j |})
}.

#[export] Instance JournalUuid : Integration.order.Uuid Journal := {
  Integration.order.uuid_New := fun j => ("7d4f7c30-0000-4000-8000-000000000001", j)
}.

#[export] Instance JournalDB : IntegrationInfra.repository.DB Journal := {
  IntegrationInfra.repository.Exec query args := fun j =>
    (None,
     {| journal_clock := journal_clock j;
        journal_statements := (journal_statements j ++ [(query, args)])%list |})
}.

Definition blank_journal : Journal :=
  {| journal_clock := 10; journal_statements := [] |}.

Definition items_as_json (items : list Integration.order.OrderItem) : string := "[{}]".

(** A request to the order service, its body already decoded. *)
Record OrderRequest : Type := {
  order_request_id : string;
  order_request_create : IntegrationInfra.handler.CreateOrderRequest + error;
  order_request_payment : IntegrationInfra.handler.ProcessPaymentRequest + error
}.

#[export] Instance OrderRequestContext : IntegrationInfra.handler.Context OrderRequest := {
  IntegrationInfra.handler.Param c name :=
    if String.eqb name "id" then order_request_id c else "";
  IntegrationInfra.handler.BindCreateOrder := order_request_create;
  IntegrationInfra.handler.BindProcessPayment := order_request_payment
}.

Definition pay_with (id method : string) : OrderRequest :=
  {| order_request_id := id;
     order_request_create := inr (errors_New "unexpected end of JSON input");
     order_request_payment :=
       inl {| IntegrationInfra.handler.req_PaymentMethod := method |} |}.

Definition nobody : Integration.usecase.OrderUseCase Journal :=
  {| Integration.usecase.eventPublisher := Integration.patterns.NewEventPublisher |}.

End more_examples.

(** * Properties *)

(** ** Facts of binary64 arithmetic the pricing code rests on *)

Module Float64Facts.
Import Float64.

Lemma hundred_div_hundred : div hundred hundred = one.
Proof. vm_compute. reflexivity. Qed.

Lemma digits2_pos_shift52 (m : positive) :
  Zpos (digits2_pos (4503599627370496 * m)) = Zpos (digits2_pos m) + 52.
Proof.
  cbn [Pos.mul digits2_pos].
  rewrite !Pos2Z.inj_succ. lia.
Qed.

Lemma shr_1_52_times (m : positive) :
  iter_pos shr_1 52
    {| shr_m := Zpos (4503599627370496 * m); shr_r := false; shr_s := false |}
  = {| shr_m := Zpos m; shr_r := false; shr_s := false |}.
Proof. reflexivity. Qed.

(** Multiplying a finite binary64 number by 1 is exact. *)
Lemma mul_one_finite (s : bool) (m : positive) (e : Z) :
  bounded prec emax m e = true ->
  mul (S754_finite s m e) one = S754_finite s m e.
Proof.
  intros Hb. unfold bounded, canonical_mantissa in Hb.
  apply andb_prop in Hb. destruct Hb as [Hcanon Hexp].
  apply Z.eqb_eq in Hcanon.
  unfold mul, SFmul, one. rewrite xorb_false_r, Pos.mul_comm.
  unfold binary_round_aux.
  unfold shr_fexp at 1. unfold Zdigits2.
  rewrite digits2_pos_shift52.
  replace (Z.pos (digits2_pos m) + 52 + (e + -52)) with (Z.pos (digits2_pos m) + e) by lia.
  rewrite Hcanon.
  replace (e - (e + -52)) with 52 by lia.
  unfold shr_record_of_loc, shr. rewrite shr_1_52_times.
  cbn [shr_m loc_of_shr_record round_nearest_even].
  unfold shr_fexp, Zdigits2.
  replace (e + -52 + 52) with e by lia.
  rewrite Hcanon, Z.sub_diag. cbn [shr shr_record_of_loc shr_m].
  rewrite Hexp. reflexivity.
Qed.

Lemma mul_one (x : float64) :
  valid x = true -> is_finite x = true -> mul x one = x.
Proof.
  destruct x as [s | s | | s m e]; cbn; intros Hv Hf; try discriminate.
  - now rewrite xorb_false_r.
  - now apply mul_one_finite.
Qed.

(** A finite number minus itself is [+0]. *)
Lemma sub_diag (x : float64) : is_finite x = true -> sub x x = zero.
Proof.
  destruct x as [s | s | | s m e]; cbn; intros Hf; try discriminate.
  - now destruct s.
  - rewrite Z.min_id. unfold shl_align. rewrite Z.sub_diag. cbn [fst].
    reflexivity.
Qed.

(** Rounding a magnitude with a plus sign never gives a number below 0. *)
Lemma binary_round_aux_plus (m e : Z) (l : location) :
  negative (binary_round_aux prec emax false m e l) = false.
Proof.
  unfold binary_round_aux.
  destruct (shr_fexp prec emax m e l) as [mrs1 e1].
  destruct (shr_fexp prec emax _ e1 loc_Exact) as [mrs2 e2].
  destruct (shr_m mrs2); [reflexivity | | reflexivity].
  destruct (e2 <=? emax - prec); reflexivity.
Qed.

Lemma not_negative_cases (x : float64) :
  negative x = false ->
  x = S754_nan \/ x = S754_infinity false \/ (exists s, x = S754_zero s)
  \/ exists m e, x = S754_finite false m e.
Proof.
  destruct x as [s | s | | s m e]; cbn; intros H.
  - right; right; left; now exists s.
  - destruct s; [discriminate | now right; left].
  - now left.
  - destruct s; [discriminate | right; right; right; now exists m, e].
Qed.

(** The sum of two numbers that are not below 0 is not below 0. *)
Lemma add_not_negative (x y : float64) :
  negative x = false -> negative y = false -> negative (add x y) = false.
Proof.
  intros Hx Hy.
  destruct (not_negative_cases x Hx) as [-> | [-> | [[sx ->] | (mx & ex & ->)]]];
  destruct (not_negative_cases y Hy) as [-> | [-> | [[sy ->] | (my & ey & ->)]]];
    try reflexivity; try (now destruct sx); try (now destruct sy).
  - now destruct sx, sy.
  - unfold add, SFadd. cbn [cond_Zopp Z.add binary_normalize].
    unfold binary_round.
    destruct (shl_align _ _ _) as [mz ez].
    apply binary_round_aux_plus.
Qed.

(** [0 <= x] is [x < 0] turned round, except on NaN, which no comparison
    accepts. *)
Lemma not_negative_leb (x : float64) :
  negative x = false -> is_nan x = false -> leb zero x = true.
Proof.
  destruct x as [s | s | | s m e]; cbn; intros H Hn; try reflexivity; try discriminate.
  - now destruct s.
  - now destruct s.
Qed.

(** Shifting and rounding keep a magnitude a magnitude, so the sum of two
    numbers that are at least 0 is a number: it is never NaN. *)
Lemma shr_1_magnitude (mrs : shr_record) : 0 <= shr_m mrs -> 0 <= shr_m (shr_1 mrs).
Proof.
  destruct mrs as [m r s]. destruct m as [| p | p]; cbn; intros H; try lia.
  - destruct p; cbn; lia.
Qed.

Lemma iter_shr_1_magnitude (n : positive) :
  forall mrs, 0 <= shr_m mrs -> 0 <= shr_m (iter_pos shr_1 n mrs).
Proof.
  induction n as [n IH | n IH |]; intros mrs H; cbn.
  - apply IH, IH. now apply shr_1_magnitude.
  - now apply IH, IH.
  - now apply shr_1_magnitude.
Qed.

Lemma shr_fexp_magnitude (m e : Z) (l : location) :
  0 <= m -> 0 <= shr_m (fst (shr_fexp prec emax m e l)).
Proof.
  intros H. unfold shr_fexp, shr.
  assert (Hrec : 0 <= shr_m (shr_record_of_loc m l)) by (destruct l as [| []]; exact H).
  destruct (fexp prec emax (Zdigits2 m + e) - e) as [| n | n]; cbn [fst]; try exact Hrec.
  now apply iter_shr_1_magnitude.
Qed.

Lemma round_nearest_even_magnitude (m : Z) (l : location) :
  0 <= m -> 0 <= round_nearest_even m l.
Proof.
  intros H. destruct l as [| []]; cbn; try destruct (Z.even m); lia.
Qed.

Lemma binary_round_aux_number (m e : Z) (l : location) :
  0 <= m -> leb zero (binary_round_aux prec emax false m e l) = true.
Proof.
  intros H. unfold binary_round_aux.
  pose proof (shr_fexp_magnitude m e l H) as H1.
  destruct (shr_fexp prec emax m e l) as [mrs1 e1]. cbn [fst] in H1.
  pose proof (shr_fexp_magnitude _ e1 loc_Exact
                (round_nearest_even_magnitude _ (loc_of_shr_record mrs1) H1)) as H2.
  destruct (shr_fexp prec emax _ e1 loc_Exact) as [mrs2 e2]. cbn [fst] in H2.
  destruct (shr_m mrs2); [reflexivity | | lia].
  destruct (e2 <=? emax - prec); reflexivity.
Qed.

Lemma at_least_zero_cases (x : float64) :
  leb zero x = true ->
  x = S754_infinity false \/ (exists s, x = S754_zero s)
  \/ exists m e, x = S754_finite false m e.
Proof.
  destruct x as [s | s | | s m e]; cbn; intros H.
  - right; left; now exists s.
  - destruct s; [discriminate | now left].
  - discriminate.
  - destruct s; [discriminate | right; right; now exists m, e].
Qed.

(** The sum of two numbers that are at least 0 is at least 0. *)
Lemma add_at_least_zero (x y : float64) :
  leb zero x = true -> leb zero y = true -> leb zero (add x y) = true.
Proof.
  intros Hx Hy.
  destruct (at_least_zero_cases x Hx) as [-> | [[sx ->] | (mx & ex & ->)]];
  destruct (at_least_zero_cases y Hy) as [-> | [[sy ->] | (my & ey & ->)]];
    try reflexivity; try (now destruct sx); try (now destruct sy).
  - now destruct sx, sy.
  - unfold add, SFadd. cbn [cond_Zopp Z.add binary_normalize].
    unfold binary_round.
    destruct (shl_align _ _ _) as [mz ez].
    apply binary_round_aux_number. lia.
Qed.

End Float64Facts.

(** ** ddd-example: discounts *)

Module PricingProofs.
Import Float64 Float64Facts DDD.model DDD.service ticking.

Section Pricing.
Context {W : Type} {clock : Clock W}.

Lemma ChangePrice_error (p p' : Product) (newPrice : Money) (w w' : W) (err : error) :
  ChangePrice p newPrice w = ((Some err, p'), w') -> p' = p /\ w' = w.
Proof.
  unfold ChangePrice. destruct (leb (amount newPrice) zero).
  - unfold ret. now intros [= _ <- <-].
  - unfold bind, ret. destruct (time_Now w). discriminate.
Qed.

(** An error of [ApplyDiscount] leaves the product, and the world, as they
    were: every error path returns before the first assignment. *)
Lemma ApplyDiscount_error (product p' : Product) (d : float64) (w w' : W) (err : error) :
  ApplyDiscount product d w = ((Some err, p'), w') -> p' = product /\ w' = w.
Proof.
  unfold ApplyDiscount.
  destruct (ltb d zero || gtb d hundred).
  - unfold ret. now intros [= _ <- <-].
  - destruct (NewMoney _ _) as [newPrice [e |]].
    + unfold ret. now intros [= _ <- <-].
    + apply ChangePrice_error.
Qed.

(** C9, as amended.  For every product whose price is a finite binary64
    number above 0, [ApplyDiscount] with a discount of 100 passes the range
    check, computes the new amount 0, which [NewMoney] accepts, and returns
    the error of [ChangePrice], which rejects an amount that is not above
    0.  And whenever [ApplyDiscount] returns an error, for any discount, the
    product (its price and [updatedAt] in particular) is unchanged. *)
Theorem ApplyDiscount_hundred_percent (product : Product) (w : W) :
  valid (amount (price product)) = true ->
  is_finite (amount (price product)) = true ->
  gtb (amount (price product)) zero = true ->
  (ltb hundred zero || gtb hundred hundred = false
   /\ sub (Amount (Price product)) (mul (Amount (Price product)) (div hundred hundred)) = zero
   /\ NewMoney zero (Currency (Price product))
      = ({| amount := zero; currency := currency (price product) |}, None)
   /\ ChangePrice product {| amount := zero; currency := currency (price product) |} w
      = ((Some (errors_New "price must be positive"), product), w)
   /\ ApplyDiscount product hundred w
      = ((Some (errors_New "price must be positive"), product), w))
  /\ (forall (p : Product) (d : float64) (w0 : W) (err : error),
        fst (fst (ApplyDiscount p d w0)) = Some err ->
        price (snd (fst (ApplyDiscount p d w0))) = price p
        /\ updatedAt (snd (fst (ApplyDiscount p d w0))) = updatedAt p
        /\ snd (fst (ApplyDiscount p d w0)) = p).
Proof.
  intros Hvalid Hfinite Hpositive.
  assert (Hzero : sub (Amount (Price product))
                      (mul (Amount (Price product)) (div hundred hundred)) = zero).
  { unfold Amount, Price. rewrite hundred_div_hundred, mul_one by assumption.
    now apply sub_diag. }
  split.
  - repeat split; try reflexivity; try assumption.
    unfold ApplyDiscount.
    replace (ltb hundred zero || gtb hundred hundred) with false by reflexivity.
    cbv zeta. rewrite Hzero. reflexivity.
  - intros p d w0 err Herr.
    destruct (ApplyDiscount p d w0) as [[e p'] w'] eqn:Hrun.
    cbn in Herr |- *. subst e.
    apply ApplyDiscount_error in Hrun. destruct Hrun as [-> _]. now repeat split.
Qed.

End Pricing.

(** A run of C9's theorem: a laptop that costs 80. *)
Lemma ApplyDiscount_hundred_percent_laptop :
  ApplyDiscount (W := ticking.Ticks) examples.laptop hundred 7
  = ((Some (errors_New "price must be positive"), examples.laptop), 7).
Proof.
  exact (proj2 (proj2 (proj2 (proj2 (proj1
    (ApplyDiscount_hundred_percent (W := Ticks) examples.laptop 7
       eq_refl eq_refl eq_refl)))))).
Defined.

(** C9, as stated, fails where the price is [+Inf], a positive price that
    [NewMoney] hands out: the discount is [Inf * 1 = Inf], the new amount
    [Inf - Inf] is NaN, which is neither below 0 nor at most 0, so both
    checks let it pass; no error is returned and the price becomes NaN. *)
Lemma ApplyDiscount_infinite_price :
  NewMoney pos_inf "USD" = (price examples.priceless, None)
  /\ gtb (amount (price examples.priceless)) zero = true
  /\ ltb hundred zero || gtb hundred hundred = false
  /\ fst (fst (ApplyDiscount (W := ticking.Ticks) examples.priceless hundred 7)) = None
  /\ amount (price (snd (fst (ApplyDiscount (W := ticking.Ticks)
                                examples.priceless hundred 7)))) = nan.
Proof. repeat split. Qed.

End PricingProofs.

(** ** integration-example: Money *)

Module MoneyProofs.
Import Float64 Float64Facts Integration.order.

Lemma NewMoney_ok (a : float64) (c : string) :
  negative a = false ->
  NewMoney a c
  = ({| amount := a; currency := if String.eqb c "" then "USD" else c |}, None).
Proof. unfold NewMoney, negative. now intros ->. Qed.

Lemma NewMoney_negative (a : float64) (c : string) :
  negative a = true ->
  NewMoney a c = (Money_zero, Some (errors_New "amount cannot be negative")).
Proof. unfold NewMoney, negative. now intros ->. Qed.

(** Whatever [NewMoney] returns, beside an error or not, is not below 0. *)
Lemma NewMoney_not_negative (a : float64) (c : string) :
  negative (amount (fst (NewMoney a c))) = false.
Proof.
  destruct (negative a) eqn:Ha.
  - now rewrite NewMoney_negative.
  - now rewrite NewMoney_ok.
Qed.

Lemma Add_same_currency (m other : Money) :
  currency m = currency other ->
  Add m other = NewMoney (add (amount m) (amount other)) (currency m).
Proof. unfold Add. intros ->. now rewrite String.eqb_refl. Qed.

Lemma produced_not_negative (m : Money) : produced m -> negative (amount m) = false.
Proof.
  induction 1 as [| a c | m other _ _ _ _ | i _ _].
  - reflexivity.
  - apply NewMoney_not_negative.
  - unfold Add. destruct (negb _); [reflexivity | apply NewMoney_not_negative].
  - apply NewMoney_not_negative.
Qed.

(** C10, as amended.  [NewMoney] returns an error exactly when the
    requested amount is negative ([amount < 0]) and otherwise a [Money] of
    that amount; [Add] returns an error when the currencies differ; when
    they agree and neither
    amount is negative it returns, without an error, the sum, which is not
    negative again (and is at least 0 when both amounts are); so every
    [Money] the package hands out has an amount that is not negative.  The
    one amount that is not negative and not at least 0 either is NaN, which
    [NewMoney] lets through. *)
Theorem Money_amount_not_negative :
  (forall (a : float64) (c : string),
      (snd (NewMoney a c) <> None <-> negative a = true)
      /\ (negative a = false -> amount (fst (NewMoney a c)) = a))
  /\ (forall m other : Money,
        currency m <> currency other -> snd (Add m other) <> None)
  /\ (forall m other : Money,
        currency m = currency other ->
        negative (amount m) = false -> negative (amount other) = false ->
        snd (Add m other) = None
        /\ amount (fst (Add m other)) = add (amount m) (amount other)
        /\ negative (amount (fst (Add m other))) = false
        /\ (leb zero (amount m) = true -> leb zero (amount other) = true ->
            leb zero (amount (fst (Add m other))) = true))
  /\ (forall m : Money,
        produced m ->
        negative (amount m) = false
        /\ (is_nan (amount m) = false -> leb zero (amount m) = true)).
Proof.
  repeat apply conj.
  - intros a c. split.
    + split.
      * destruct (negative a) eqn:Ha; [reflexivity |].
        rewrite NewMoney_ok by assumption. now intros [].
      * intros Ha. now rewrite NewMoney_negative.
    + intros Ha. now rewrite NewMoney_ok.
  - intros m other Hdiff. unfold Add.
    apply String.eqb_neq in Hdiff. rewrite Hdiff. discriminate.
  - intros m other Hsame Hm Ho.
    pose proof (add_not_negative _ _ Hm Ho) as Hsum.
    rewrite Add_same_currency, NewMoney_ok by assumption.
    cbn [fst snd amount]. repeat split; try assumption.
    apply add_at_least_zero.
  - intros m Hm. pose proof (produced_not_negative m Hm) as Hneg.
    split; [assumption | now apply not_negative_leb].
Qed.

(** A run of C10's theorem: 19.99 is out of reach of integer constants, so
    the example adds 20 and 5 dollars. *)
Lemma Money_amount_not_negative_example :
  Add {| amount := of_Z 20; currency := "USD" |} {| amount := of_Z 5; currency := "USD" |}
  = ({| amount := of_Z 25; currency := "USD" |}, None)
  /\ negative (amount (fst (Add {| amount := of_Z 20; currency := "USD" |}
                                {| amount := of_Z 5; currency := "USD" |}))) = false.
Proof.
  split; [reflexivity |].
  exact (proj1 (proj2 (proj2
    (proj1 (proj2 (proj2 Money_amount_not_negative))
       {| amount := of_Z 20; currency := "USD" |} {| amount := of_Z 5; currency := "USD" |}
       eq_refl eq_refl eq_refl)))).
Defined.

(** C10, as stated, fails on NaN: [NewMoney] tests [amount < 0], which
    NaN does not satisfy, so it hands out a [Money] whose amount is NaN
    without an error; and NaN is not at least 0. *)
Lemma NewMoney_accepts_NaN :
  NewMoney nan "USD" = ({| amount := nan; currency := "USD" |}, None)
  /\ produced {| amount := nan; currency := "USD" |}
  /\ ltb (amount {| amount := nan; currency := "USD" |}) zero = false
  /\ leb zero (amount {| amount := nan; currency := "USD" |}) = false.
Proof.
  split; [reflexivity |]. split; [exact (produced_NewMoney nan "USD") |].
  split; reflexivity.
Qed.

End MoneyProofs.

(** ** integration-example: the status of an order *)

Module OrderProofs.
Import Integration.order ticking.

Section Status.
Context {W : Type} {clock : Clock W}.

Lemma MarkAsPaid_pending (o : Order) (w : W) :
  status o = OrderStatusPending ->
  MarkAsPaid o w
  = ((None, transition o OrderStatusPaid (fst (time_Now w))), snd (time_Now w)).
Proof.
  intros H. unfold MarkAsPaid. rewrite H, String.eqb_refl. cbn [negb].
  unfold bind, ret. now destruct (time_Now w).
Qed.

Lemma MarkAsPaid_refused (o : Order) (w : W) :
  status o <> OrderStatusPending ->
  MarkAsPaid o w
  = ((Some (errors_New "only pending orders can be marked as paid"), o), w).
Proof.
  intros H. unfold MarkAsPaid. apply String.eqb_neq in H. now rewrite H.
Qed.

Lemma Ship_refused (o : Order) (w : W) :
  status o <> OrderStatusPaid ->
  Ship o w = ((Some (errors_New "only paid orders can be shipped"), o), w).
Proof.
  intros H. unfold Ship. apply String.eqb_neq in H. now rewrite H.
Qed.

Lemma Cancel_refused (o : Order) (w : W) :
  status o = OrderStatusShipped \/ status o = OrderStatusDelivered ->
  Cancel o w = ((Some (errors_New "cannot cancel shipped or delivered orders"), o), w).
Proof.
  intros [H | H]; unfold Cancel; rewrite H; reflexivity.
Qed.

Lemma Cancel_done (o : Order) (w : W) :
  status o <> OrderStatusShipped -> status o <> OrderStatusDelivered ->
  Cancel o w
  = ((None, transition o OrderStatusCancelled (fst (time_Now w))), snd (time_Now w)).
Proof.
  intros Hs Hd. unfold Cancel.
  apply String.eqb_neq in Hs, Hd. rewrite Hs, Hd. cbn [orb].
  unfold bind, ret. now destruct (time_Now w).
Qed.

(** A shipped or delivered order refuses every domain method. *)
Lemma call_refused (m : Method) (o : Order) (w : W) :
  status o = OrderStatusShipped \/ status o = OrderStatusDelivered ->
  exists err, call m o w = ((Some err, o), w).
Proof.
  intros H. destruct m; cbn [call].
  - eexists. apply MarkAsPaid_refused. destruct H as [-> | ->]; discriminate.
  - eexists. apply Ship_refused. destruct H as [-> | ->]; discriminate.
  - eexists. now apply Cancel_refused.
Qed.

Lemma history_frozen (ms : list Method) (o : Order) (w : W) :
  status o = OrderStatusShipped \/ status o = OrderStatusDelivered ->
  history ms o w = (o, w).
Proof.
  intros H. induction ms as [| m ms IH]; [reflexivity |].
  cbn [history]. unfold bind.
  destruct (call_refused m o w H) as [err ->]. exact IH.
Qed.

(** C1.  [MarkAsPaid] succeeds exactly when the status is PENDING: then it
    returns nil and the order has the status PAID (and the time of the call
    as [updatedAt]); in any other status it returns an error and leaves the
    order, its status in particular, as it was. *)
Theorem MarkAsPaid_exactly_when_pending (o : Order) (w : W) :
  (fst (fst (MarkAsPaid o w)) = None <-> status o = OrderStatusPending)
  /\ (status o = OrderStatusPending ->
      fst (fst (MarkAsPaid o w)) = None
      /\ status (snd (fst (MarkAsPaid o w))) = OrderStatusPaid
      /\ snd (fst (MarkAsPaid o w)) = transition o OrderStatusPaid (fst (time_Now w)))
  /\ (status o <> OrderStatusPending ->
      (exists err, fst (fst (MarkAsPaid o w)) = Some err)
      /\ status (snd (fst (MarkAsPaid o w))) = status o
      /\ snd (fst (MarkAsPaid o w)) = o).
Proof.
  repeat apply conj.
  - intros Hnil. destruct (string_dec (status o) OrderStatusPending) as [| Hne];
      [assumption |].
    rewrite MarkAsPaid_refused in Hnil by assumption. discriminate.
  - intros H. now rewrite MarkAsPaid_pending.
  - intros H. rewrite MarkAsPaid_pending by assumption. now repeat split.
  - intros H. rewrite MarkAsPaid_refused by assumption.
    repeat split. now eexists.
Qed.

(** C8.  An order that is SHIPPED or DELIVERED never becomes CANCELLED,
    whatever sequence of [MarkAsPaid], [Ship] and [Cancel] is called on it:
    [Cancel] returns an error and leaves the status as it is, and so does
    every history of calls.  In every other status [Cancel] returns nil and
    sets the status CANCELLED. *)
Theorem shipped_or_delivered_never_cancelled (o : Order) (w : W) :
  (status o = OrderStatusShipped \/ status o = OrderStatusDelivered ->
   (exists err, fst (fst (Cancel o w)) = Some err)
   /\ status (snd (fst (Cancel o w))) = status o
   /\ forall ms : list Method,
        status (fst (history ms o w)) = status o
        /\ status (fst (history ms o w)) <> OrderStatusCancelled)
  /\ (status o <> OrderStatusShipped -> status o <> OrderStatusDelivered ->
      fst (fst (Cancel o w)) = None
      /\ status (snd (fst (Cancel o w))) = OrderStatusCancelled).
Proof.
  split.
  - intros H. rewrite Cancel_refused by assumption. cbn [fst snd].
    split; [now eexists |]. split; [reflexivity |].
    intros ms. rewrite history_frozen by assumption. cbn [fst].
    split; [reflexivity |]. destruct H as [-> | ->]; discriminate.
  - intros Hs Hd. rewrite Cancel_done by assumption. now split.
Qed.

End Status.

(** Runs of C1's theorem: a pending order is paid at tick 7, a paid one is
    refused. *)
Lemma MarkAsPaid_exactly_when_pending_example :
  MarkAsPaid (examples.order_in "PENDING") (7 : Ticks)
  = ((None, transition (examples.order_in "PENDING") "PAID" 7), 8)
  /\ snd (fst (MarkAsPaid (examples.order_in "PAID") (7 : Ticks))) = examples.order_in "PAID".
Proof.
  split; [reflexivity |].
  refine (proj2 (proj2 (proj2 (proj2
    (MarkAsPaid_exactly_when_pending (examples.order_in "PAID") (7 : Ticks))) _))).
  discriminate.
Defined.

(** A run of C8's theorem: a shipped order under four calls. *)
Lemma shipped_or_delivered_never_cancelled_example :
  status (fst (history [DoCancel; DoMarkAsPaid; DoShip; DoCancel]
                       (examples.order_in "SHIPPED") (7 : Ticks))) <> "CANCELLED".
Proof.
  exact (proj2 (proj2 (proj2
    (proj1 (shipped_or_delivered_never_cancelled (examples.order_in "SHIPPED") (7 : Ticks))
           (or_introl eq_refl)))
    [DoCancel; DoMarkAsPaid; DoShip; DoCancel])).
Defined.

End OrderProofs.

(** ** clean-architecture-example: validation and the task use cases *)

Module TaskProofs.
Import CleanArch.domain CleanArch.spy.

Lemma len_empty (s : string) : len s = 0 <-> s = "".
Proof.
  unfold len. destruct s; cbn [String.length]; split; intros H;
    try reflexivity; try discriminate; lia.
Qed.

Lemma ValidateTitle_None (title : string) :
  ValidateTitle title = None <-> title <> "" /\ len title <= 200.
Proof.
  unfold ValidateTitle.
  destruct (String.eqb_spec title "") as [-> | Hne].
  - split; [discriminate | now intros [[] _]].
  - destruct (Z.ltb_spec 200 (len title)) as [Hlong | Hshort].
    + split; [discriminate | intros [_ H]; lia].
    + split; [now split | reflexivity].
Qed.

Lemma ValidateTitle_long (title : string) :
  200 < len title -> ValidateTitle title = Some ErrTitleTooLong.
Proof.
  intros Hlong. unfold ValidateTitle.
  destruct (String.eqb_spec title "") as [-> | Hne].
  - cbn in Hlong. lia.
  - apply Z.ltb_lt in Hlong. now rewrite Hlong.
Qed.

Lemma ValidateDescription_None (description : string) :
  ValidateDescription description = None <-> len description <= 1000.
Proof.
  unfold ValidateDescription.
  destruct (Z.ltb_spec 1000 (len description)); split;
    try discriminate; try reflexivity; lia.
Qed.

Lemma ValidateDescription_long (description : string) :
  1000 < len description -> ValidateDescription description = Some ErrDescriptionTooLong.
Proof.
  intros H. unfold ValidateDescription. apply Z.ltb_lt in H. now rewrite H.
Qed.




Section TaskMethods.
Context {W : Type} {clock : Clock W}.




End TaskMethods.

Section UseCases.
Context {W : Type} {clock : Clock W} {taskRepo : TaskRepository W}.

(** What the recording world answers and records. *)
Lemma spy_GetByID (id : Z) (w : W) (log : list Call) :
  GetByID (W := Spied W) id (w, log)
  = (fst (GetByID id w), (snd (GetByID id w), (log ++ [CallGetByID id])%list)).
Proof. cbn. unfold logged. cbn. now destruct (GetByID id w). Qed.

Lemma spy_Update (t : Task) (w : W) (log : list Call) :
  Update (W := Spied W) t (w, log)
  = (fst (Update t w), (snd (Update t w), (log ++ [CallUpdate t])%list)).
Proof. cbn. unfold logged. cbn. now destruct (Update t w). Qed.

Lemma spy_time_Now (w : W) (log : list Call) :
  time_Now (W := Spied W) (w, log) = (fst (time_Now w), (snd (time_Now w), log)).
Proof. cbn. unfold unlogged. cbn. now destruct (time_Now w). Qed.

(** C3.  [CreateTask] on an input whose title is empty returns
    [(nil, ErrEmptyTitle)]; the recording repository saw no call, of
    [Create] or of any other method, and the world is as it was. *)
Theorem CreateTask_empty_title (input : CleanArch.usecase.CreateTaskInput) (w : W) :
  CleanArch.usecase.create_Title input = "" ->
  CleanArch.usecase.CreateTask (W := Spied W) input (w, [])
  = (inr ErrEmptyTitle, (w, []))
  /\ as_pair (fst (CleanArch.usecase.CreateTask (W := Spied W) input (w, [])))
     = (None, Some ErrEmptyTitle)
  /\ calls is_Create (snd (snd (CleanArch.usecase.CreateTask (W := Spied W) input (w, []))))
     = 0%nat.
Proof.
  intros Htitle.
  assert (Hrun : CleanArch.usecase.CreateTask (W := Spied W) input (w, [])
                 = (inr ErrEmptyTitle, (w, []))).
  { unfold CleanArch.usecase.CreateTask, NewTask. rewrite Htitle. reflexivity. }
  rewrite Hrun. now repeat split.
Qed.

(** C7.  Whatever error [GetByID] returns, [GetTask] returns
    [(nil, ErrTaskNotFound)]; when [GetByID] returns a task, [GetTask]
    returns that task and a nil error. *)
Theorem GetTask_collapses_errors (id : Z) (w : W) :
  (forall (err : error) (w' : W),
      GetByID id w = (inr err, w') ->
      CleanArch.usecase.GetTask id w = (inr ErrTaskNotFound, w')
      /\ as_pair (fst (CleanArch.usecase.GetTask id w)) = (None, Some ErrTaskNotFound))
  /\ (forall (task : Task) (w' : W),
      GetByID id w = (inl task, w') ->
      CleanArch.usecase.GetTask id w = (inl task, w')
      /\ as_pair (fst (CleanArch.usecase.GetTask id w)) = (Some task, None)).
Proof.
  split; intros x w' Hget; unfold CleanArch.usecase.GetTask, bind; rewrite Hget;
    now split.
Qed.





End UseCases.

End TaskProofs.

(** Runs of the use-case theorems on the store in memory. *)
Module TaskRuns.
Import CleanArch.domain CleanArch.spy CleanArch.memory TaskProofs.

(** A run of C3's theorem: nothing reaches the store. *)
Lemma CreateTask_empty_title_example :
  CleanArch.usecase.CreateTask (W := Spied Mem)
    {| CleanArch.usecase.create_Title := "";
       CleanArch.usecase.create_Description := "2 litres" |} (examples.pantry, [])
  = (inr ErrEmptyTitle, (examples.pantry, [])).
Proof.
  exact (proj1 (CreateTask_empty_title (W := Mem)
                  {| CleanArch.usecase.create_Title := "";
                     CleanArch.usecase.create_Description := "2 litres" |}
                  examples.pantry eq_refl)).
Defined.

(** Runs of C7's theorem: task 42 is in the store, task 7 is not. *)
Lemma GetTask_collapses_errors_example :
  CleanArch.usecase.GetTask 7 examples.pantry = (inr ErrTaskNotFound, examples.pantry)
  /\ CleanArch.usecase.GetTask 42 examples.pantry = (inl examples.groceries, examples.pantry).
Proof.
  split.
  - exact (proj1 (proj1 (GetTask_collapses_errors (W := Mem) 7 examples.pantry)
                    no_rows examples.pantry eq_refl)).
  - exact (proj1 (proj2 (GetTask_collapses_errors (W := Mem) 42 examples.pantry)
                    examples.groceries examples.pantry eq_refl)).
Defined.



End TaskRuns.

(** ** clean-architecture-example: the handlers *)

Module HandlerProofs.
Import CleanArch.domain CleanArch.memory CleanArch.handler.

Lemma error_eqb_ErrTaskNotFound (err : error) :
  error_eqb err ErrTaskNotFound = true <-> err = ErrTaskNotFound.
Proof. destruct err; cbn; split; intros H; try reflexivity; discriminate. Qed.

Lemma error_neqb_ErrTaskNotFound (err : error) :
  err <> ErrTaskNotFound -> error_eqb err ErrTaskNotFound = false.
Proof. destruct err; cbn; intros H; try reflexivity. now contradiction H. Qed.

Section Handlers.
Context {W : Type} {clock : Clock W} {taskRepo : TaskRepository W}.
Context {C : Type} {echo : Context C}.
Variable strconv_ParseInt : string -> Z -> Z -> Z + error.
Variable time_Format : time -> string -> string.

(** C6.  For a request whose id parses (and, for an update, whose body
    binds): when the use case returns [ErrTaskNotFound] the handler answers
    404; when [usecase.UpdateTask] returns any other error the handler
    answers 400, and when [usecase.DeleteTask] returns any other error it
    answers 500.  The handler leaves the world as the use case left it. *)
Theorem handlers_map_errors_to_status (c : C) (id : Z) (w : W) :
  strconv_ParseInt (Param c "id") 10 64 = inl id ->
  (forall req : UpdateTaskRequest,
      BindUpdate c = inl req ->
      let input := {| CleanArch.usecase.input_ID := id;
                      CleanArch.usecase.input_Title := req_Title req;
                      CleanArch.usecase.input_Description := req_Description req;
                      CleanArch.usecase.input_Completed := req_Completed req |} in
      let answer := UpdateTask strconv_ParseInt time_Format c w in
      snd answer = snd (CleanArch.usecase.UpdateTask input w)
      /\ (fst (CleanArch.usecase.UpdateTask input w) = inr ErrTaskNotFound ->
          Status (fst answer) = 404)
      /\ (forall err : error,
            fst (CleanArch.usecase.UpdateTask input w) = inr err ->
            err <> ErrTaskNotFound -> Status (fst answer) = 400))
  /\ (let answer := DeleteTask strconv_ParseInt c w in
      snd answer = snd (CleanArch.usecase.DeleteTask id w)
      /\ (fst (CleanArch.usecase.DeleteTask id w) = Some ErrTaskNotFound ->
          Status (fst answer) = 404)
      /\ (forall err : error,
            fst (CleanArch.usecase.DeleteTask id w) = Some err ->
            err <> ErrTaskNotFound -> Status (fst answer) = 500)).
Proof.
  intros Hid. split.
  - intros req Hbind input answer. subst answer.
    unfold UpdateTask. rewrite Hid, Hbind. fold input. unfold bind.
    destruct (CleanArch.usecase.UpdateTask input w) as [[task | e] w']; cbn [fst snd].
    + repeat split; discriminate.
    + repeat split.
      * now destruct (error_eqb e ErrTaskNotFound).
      * intros [= ->]. reflexivity.
      * intros err [= ->] Hne. now rewrite error_neqb_ErrTaskNotFound.
  - intros answer. subst answer.
    unfold DeleteTask. rewrite Hid. unfold bind.
    destruct (CleanArch.usecase.DeleteTask id w) as [[e |] w']; cbn [fst snd].
    + repeat split.
      * now destruct (error_eqb e ErrTaskNotFound).
      * intros [= ->]. reflexivity.
      * intros err [= ->] Hne. now rewrite error_neqb_ErrTaskNotFound.
    + repeat split; discriminate.
Qed.

End Handlers.

(** Runs of C6's theorem: task 7 is not in the store, so both handlers
    answer 404. *)
Lemma handlers_map_errors_to_status_example :
  Status (fst (UpdateTask CleanArch.memory.ParseInt CleanArch.memory.Format
                 (examples.request_for "7") examples.pantry)) = 404
  /\ Status (fst (DeleteTask CleanArch.memory.ParseInt
                    (examples.request_for "7") examples.pantry)) = 404.
Proof.
  pose proof (handlers_map_errors_to_status (W := CleanArch.memory.Mem)
                CleanArch.memory.ParseInt CleanArch.memory.Format
                (examples.request_for "7") 7 examples.pantry eq_refl) as [Hupdate Hdelete].
  split.
  - exact (proj1 (proj2 (Hupdate _ eq_refl)) eq_refl).
  - exact (proj1 (proj2 Hdelete) eq_refl).
Defined.

End HandlerProofs.

(** ** integration-example: the order use cases *)

Module OrderUseCaseProofs.
Import Integration.order Integration.spy Integration.memory.

Section Recording.
Context {W : Type} {clock : Clock W} {orderRepo : OrderRepository W}.

Lemma spy_FindByID (i : OrderID) (w : W) (log : list Call) :
  FindByID (W := Spied W) i (w, log)
  = (fst (FindByID i w), (snd (FindByID i w), (log ++ [CallFindByID i])%list)).
Proof. cbn. unfold logged. cbn. now destruct (FindByID i w). Qed.

Lemma spy_order_Update (o : Order) (w : W) (log : list Call) :
  Update (W := Spied W) o (w, log)
  = (fst (Update o w), (snd (Update o w), (log ++ [CallUpdate o])%list)).
Proof. cbn. unfold logged. cbn. now destruct (Update o w). Qed.

(** The domain methods and the observers act behind the log. *)
Lemma spy_MarkAsPaid (o : Order) (w : W) (log : list Call) :
  snd (snd (MarkAsPaid (W := Spied W) o (w, log))) = log.
Proof.
  unfold MarkAsPaid. destruct (negb _); [reflexivity |].
  unfold bind, ret. cbn. unfold unlogged. cbn. now destruct (time_Now w).
Qed.

Lemma spy_Ship (o : Order) (w : W) (log : list Call) :
  snd (snd (Ship (W := Spied W) o (w, log))) = log.
Proof.
  unfold Ship. destruct (negb _); [reflexivity |].
  unfold bind, ret. cbn. unfold unlogged. cbn. now destruct (time_Now w).
Qed.

Lemma spy_Publish (uc : Integration.usecase.OrderUseCase W)
    (event : Integration.patterns.Event) (s : Spied W) :
  snd (snd (Integration.patterns.Publish
              (Integration.usecase.eventPublisher (spied uc)) event s)) = snd s.
Proof.
  unfold Integration.patterns.Publish, spied. cbn.
  generalize (Integration.patterns.observers (Integration.usecase.eventPublisher uc)).
  intros obs. revert s.
  induction obs as [| ob obs IH]; intros s; [reflexivity |].
  cbn [List.map Integration.patterns.notify]. unfold bind.
  unfold unlogged at 1. destruct (ob event (fst s)) as [u w'].
  rewrite IH. reflexivity.
Qed.

(** C4.  [GetOrder], [ProcessPayment] and [ShipOrder] do not depend on
    their [orderID] argument: for two ids, in the same world and with the
    other arguments equal, each returns the same result and leaves the same
    world.  Each looks the order up with the zero value [OrderID{}]: the
    recording repository sees [FindByID(OrderID{})] first, and after it at
    most one call, of [Update]. *)
Theorem use_cases_ignore_orderID (uc : Integration.usecase.OrderUseCase W)
    (orderID orderID' paymentMethod trackingNumber : string) (w : W) :
  (Integration.usecase.GetOrder orderID w = Integration.usecase.GetOrder orderID' w
   /\ Integration.usecase.ProcessPayment uc orderID paymentMethod w
      = Integration.usecase.ProcessPayment uc orderID' paymentMethod w
   /\ Integration.usecase.ShipOrder uc orderID trackingNumber w
      = Integration.usecase.ShipOrder uc orderID' trackingNumber w)
  /\ Integration.usecase.GetOrder orderID w = FindByID OrderID_zero w
  /\ snd (snd (Integration.usecase.GetOrder (W := Spied W) orderID (w, [])))
     = [CallFindByID OrderID_zero]
  /\ (let log := snd (snd (Integration.usecase.ProcessPayment (spied uc) orderID
                             paymentMethod (w, []))) in
      log = [CallFindByID OrderID_zero]
      \/ exists o : Order, log = [CallFindByID OrderID_zero; CallUpdate o])
  /\ (let log := snd (snd (Integration.usecase.ShipOrder (spied uc) orderID
                             trackingNumber (w, []))) in
      log = [CallFindByID OrderID_zero]
      \/ exists o : Order, log = [CallFindByID OrderID_zero; CallUpdate o]).
Proof.
  split; [now repeat split |]. split; [reflexivity |]. repeat apply conj.
  - unfold Integration.usecase.GetOrder. now rewrite spy_FindByID.
  - cbv zeta. unfold Integration.usecase.ProcessPayment, bind.
    rewrite spy_FindByID. cbn [fst snd app].
    destruct (FindByID OrderID_zero w) as [[ord | err] w1]; cbn [fst snd ret];
      [| now left].
    destruct (Integration.patterns.CreatePayment paymentMethod) as [strategy | err];
      [| now left].
    destruct (Integration.patterns.ProcessPayment strategy _ _) as [err |];
      [now left |].
    pose proof (spy_MarkAsPaid ord w1 [CallFindByID OrderID_zero]) as Hpaid.
    destruct (MarkAsPaid (W := Spied W) ord _) as [[[err |] ord1] [w2 log2]];
      cbn [fst snd] in Hpaid; subst log2; [now left |].
    rewrite spy_order_Update. cbn [fst snd app].
    destruct (Update ord1 w2) as [[[err |] ord2] w3]; cbn [fst snd ret];
      [right; now exists ord1 |].
    right. exists ord1.
    match goal with
    | |- context [Integration.patterns.Publish ?p ?e ?s] =>
      pose proof (spy_Publish uc e s) as Hpub;
      destruct (Integration.patterns.Publish p e s) as [u [w4 log4]]
    end.
    cbn [fst snd] in Hpub. now subst log4.
  - cbv zeta. unfold Integration.usecase.ShipOrder, bind.
    rewrite spy_FindByID. cbn [fst snd app].
    destruct (FindByID OrderID_zero w) as [[ord | err] w1]; cbn [fst snd ret];
      [| now left].
    pose proof (spy_Ship ord w1 [CallFindByID OrderID_zero]) as Hship.
    destruct (Ship (W := Spied W) ord _) as [[[err |] ord1] [w2 log2]];
      cbn [fst snd] in Hship; subst log2; [now left |].
    rewrite spy_order_Update. cbn [fst snd app].
    destruct (Update ord1 w2) as [[[err |] ord2] w3]; cbn [fst snd ret];
      [right; now exists ord1 |].
    right. exists ord1.
    match goal with
    | |- context [Integration.patterns.Publish ?p ?e ?s] =>
      pose proof (spy_Publish uc e s) as Hpub;
      destruct (Integration.patterns.Publish p e s) as [u [w4 log4]]
    end.
    cbn [fst snd] in Hpub. now subst log4.
Qed.

End Recording.

(** A run of C4's theorem: the store holds the order ["order-1"], and
    paying for ["order-1"] fails like paying for ["no-such-order"], because
    the lookup asks for the order whose id is empty. *)
Lemma use_cases_ignore_orderID_example :
  Integration.usecase.ProcessPayment Integration.memory.service "order-1" "paypal"
    examples.orders
  = Integration.usecase.ProcessPayment Integration.memory.service "no-such-order" "paypal"
      examples.orders
  /\ fst (Integration.usecase.ProcessPayment Integration.memory.service "order-1" "paypal"
            examples.orders) = Some Integration.memory.no_rows.
Proof.
  split; [| reflexivity].
  exact (proj1 (proj2 (proj1
    (use_cases_ignore_orderID (W := Integration.memory.Mem) Integration.memory.service
       "order-1" "no-such-order" "paypal" "" examples.orders)))).
Defined.

End OrderUseCaseProofs.

(** ** integration-example: the life cycle of an order *)

Module OrderLifecycle.
Import Integration.order ticking OrderProofs.

Section Lifecycle.
Context {W : Type} {clock : Clock W}.

Lemma Ship_paid (o : Order) (w : W) :
  status o = OrderStatusPaid ->
  Ship o w
  = ((None, transition o OrderStatusShipped (fst (time_Now w))), snd (time_Now w)).
Proof.
  intros H. unfold Ship. rewrite H, String.eqb_refl. cbn [negb].
  unfold bind, ret. now destruct (time_Now w).
Qed.

(** One call of a domain method: it is refused and nothing changes, or it
    is one of the three transitions and only the status and [updatedAt]
    change. *)
Lemma call_outcome (m : Method) (o : Order) (w : W) :
  (exists err, call m o w = ((Some err, o), w))
  \/ (exists s : OrderStatus,
        call m o w = ((None, transition o s (fst (time_Now w))), snd (time_Now w))
        /\ ((m = DoMarkAsPaid /\ status o = OrderStatusPending /\ s = OrderStatusPaid)
            \/ (m = DoShip /\ status o = OrderStatusPaid /\ s = OrderStatusShipped)
            \/ (m = DoCancel /\ status o <> OrderStatusShipped
                /\ status o <> OrderStatusDelivered /\ s = OrderStatusCancelled))).
Proof.
  destruct m; cbn [call].
  - destruct (string_dec (status o) OrderStatusPending) as [He | Hne].
    + right. exists OrderStatusPaid. split; [now apply MarkAsPaid_pending |].
      left. now repeat split.
    + left. eexists. now apply MarkAsPaid_refused.
  - destruct (string_dec (status o) OrderStatusPaid) as [He | Hne].
    + right. exists OrderStatusShipped. split; [now apply Ship_paid |].
      right. left. now repeat split.
    + left. eexists. now apply Ship_refused.
  - destruct (string_dec (status o) OrderStatusShipped) as [He | Hs].
    { left. eexists. apply Cancel_refused. now left. }
    destruct (string_dec (status o) OrderStatusDelivered) as [He | Hd].
    { left. eexists. apply Cancel_refused. now right. }
    right. exists OrderStatusCancelled. split; [now apply Cancel_done |].
    right. right. now repeat split.
Qed.

Lemma history_cons (m : Method) (ms : list Method) (o : Order) (w : W) :
  history (m :: ms) o w = history ms (snd (fst (call m o w))) (snd (call m o w)).
Proof.
  cbn [history]. unfold bind. now destruct (call m o w) as [[err o'] w'].
Qed.

(** X1.  [Ship] succeeds exactly when the status is PAID: then the order is
    SHIPPED, [updatedAt] is the time of the call and every other field is
    as it was; in any other status it returns an error, the order is
    unchanged and the clock is not read. *)
Theorem Ship_exactly_when_paid (o : Order) (w : W) :
  (fst (fst (Ship o w)) = None <-> status o = OrderStatusPaid)
  /\ (status o = OrderStatusPaid ->
      Ship o w
      = ((None, {| id := id o; customerID := customerID o; items := items o;
                   totalAmount := totalAmount o; status := OrderStatusShipped;
                   createdAt := createdAt o; updatedAt := fst (time_Now w) |}),
         snd (time_Now w)))
  /\ (status o <> OrderStatusPaid ->
      Ship o w = ((Some (errors_New "only paid orders can be shipped"), o), w)).
Proof.
  split; [split |]; [| | split].
  - intros Hnil. destruct (string_dec (status o) OrderStatusPaid) as [| Hne];
      [assumption |].
    rewrite Ship_refused in Hnil by assumption. discriminate.
  - intros H. now rewrite Ship_paid.
  - apply Ship_paid.
  - apply Ship_refused.
Qed.

(** X2.  CANCELLED is final: whatever methods are called on a cancelled
    order, in whatever order, its status stays CANCELLED. *)
Theorem cancelled_is_final (ms : list Method) (o : Order) (w : W) :
  status o = OrderStatusCancelled ->
  status (fst (history ms o w)) = OrderStatusCancelled.
Proof.
  revert o w. induction ms as [| m ms IH]; intros o w H; [exact H |].
  rewrite history_cons. apply IH.
  destruct (call_outcome m o w) as [[err ->] | [s [-> Hs]]]; [exact H |].
  cbn [fst snd transition status].
  destruct Hs as [(_ & Hp & _) | [(_ & Hp & _) | (_ & _ & _ & ->)]];
    [rewrite H in Hp; discriminate | rewrite H in Hp; discriminate | reflexivity].
Qed.

(** X3.  No domain method sets DELIVERED: an order that is DELIVERED after
    a history of calls was DELIVERED before it. *)
Theorem delivered_is_never_set (ms : list Method) (o : Order) (w : W) :
  status (fst (history ms o w)) = OrderStatusDelivered ->
  status o = OrderStatusDelivered.
Proof.
  revert o w. induction ms as [| m ms IH]; intros o w H; [exact H |].
  rewrite history_cons in H. apply IH in H.
  destruct (call_outcome m o w) as [[err Hc] | [s [Hc Hs]]]; rewrite Hc in H.
  - exact H.
  - cbn [fst snd transition status] in H.
    destruct Hs as [(_ & _ & ->) | [(_ & _ & ->) | (_ & _ & _ & ->)]]; discriminate.
Qed.

(** X5.  The domain methods change nothing but the status and [updatedAt]:
    the id, the customer, the items, the total and [createdAt] of an order
    are the same after every history of calls. *)
Theorem history_keeps_identity (ms : list Method) (o : Order) (w : W) :
  let o' := fst (history ms o w) in
  id o' = id o /\ customerID o' = customerID o /\ items o' = items o
  /\ totalAmount o' = totalAmount o /\ createdAt o' = createdAt o.
Proof.
  revert o w. induction ms as [| m ms IH]; intros o w; [now repeat split |].
  cbv zeta in *. rewrite history_cons.
  specialize (IH (snd (fst (call m o w))) (snd (call m o w))).
  destruct (call_outcome m o w) as [[err Hc] | [s [Hc _]]]; rewrite Hc in *;
    cbn [fst snd transition id customerID items totalAmount createdAt] in IH;
    exact IH.
Qed.

(** Where a history that ends SHIPPED can have started. *)
Lemma shipped_history (ms : list Method) (o : Order) (w : W) :
  status (fst (history ms o w)) = OrderStatusShipped ->
  status o = OrderStatusShipped
  \/ (status o = OrderStatusPaid /\ exists ms1 ms2, ms = (ms1 ++ DoShip :: ms2)%list)
  \/ (status o = OrderStatusPending
      /\ exists ms1 ms2 ms3,
           ms = (ms1 ++ DoMarkAsPaid :: ms2 ++ DoShip :: ms3)%list).
Proof.
  revert o w. induction ms as [| m ms IH]; intros o w H; [now left |].
  rewrite history_cons in H. apply IH in H. clear IH.
  destruct (call_outcome m o w) as [[err Hc] | [s [Hc Hs]]]; rewrite Hc in H;
    cbn [fst snd transition status] in H.
  - destruct H as [H | [[H (ms1 & ms2 & ->)] | [H (ms1 & ms2 & ms3 & ->)]]].
    + now left.
    + right. left. split; [exact H |]. now exists (m :: ms1), ms2.
    + right. right. split; [exact H |]. now exists (m :: ms1), ms2, ms3.
  - destruct Hs as [(-> & Hp & ->) | [(-> & Hp & ->) | (-> & _ & _ & ->)]].
    + destruct H as [H | [[_ (ms1 & ms2 & ->)] | [H _]]]; try discriminate.
      right. right. split; [exact Hp |]. now exists [], ms1, ms2.
    + right. left. split; [exact Hp |]. now exists [], ms.
    + destruct H as [H | [[H _] | [H _]]]; discriminate.
Qed.

(** X4.  An order is shipped only after it was paid: every history that
    takes a PENDING order to SHIPPED contains a call of [MarkAsPaid] and,
    after it, a call of [Ship]. *)
Theorem shipped_only_after_paid (ms : list Method) (o : Order) (w : W) :
  status o = OrderStatusPending ->
  status (fst (history ms o w)) = OrderStatusShipped ->
  exists ms1 ms2 ms3, ms = (ms1 ++ DoMarkAsPaid :: ms2 ++ DoShip :: ms3)%list.
Proof.
  intros Hp H.
  destruct (shipped_history ms o w H) as [Hs | [[Hs _] | [_ Hex]]];
    [rewrite Hp in Hs; discriminate | rewrite Hp in Hs; discriminate | exact Hex].
Qed.

End Lifecycle.

(** Runs of X2 and X4. *)
Lemma cancelled_is_final_example :
  status (fst (history [DoMarkAsPaid; DoShip; DoCancel; DoMarkAsPaid]
                       (examples.order_in "CANCELLED") (7 : Ticks))) = "CANCELLED".
Proof.
  exact (cancelled_is_final [DoMarkAsPaid; DoShip; DoCancel; DoMarkAsPaid]
           (examples.order_in "CANCELLED") (7 : Ticks) eq_refl).
Defined.

Lemma delivered_is_never_set_example :
  status (examples.order_in "DELIVERED") = "DELIVERED".
Proof.
  exact (delivered_is_never_set [DoCancel; DoShip] (examples.order_in "DELIVERED")
           (7 : Ticks) eq_refl).
Defined.

Lemma shipped_only_after_paid_example :
  exists ms1 ms2 ms3,
    [DoShip; DoMarkAsPaid; DoMarkAsPaid; DoShip; DoCancel]
    = (ms1 ++ DoMarkAsPaid :: ms2 ++ DoShip :: ms3)%list.
Proof.
  exact (shipped_only_after_paid [DoShip; DoMarkAsPaid; DoMarkAsPaid; DoShip; DoCancel]
           (examples.order_in "PENDING") (7 : Ticks) eq_refl eq_refl).
Defined.

End OrderLifecycle.

(** ** integration-example: money, items and new orders *)

Module OrderValueProofs.
Import Float64 Float64Facts Integration.order ticking more_examples MoneyProofs.

(** Addition of binary64 numbers is commutative. *)
Lemma add_comm (x y : float64) : add x y = add y x.
Proof.
  destruct x as [sx | sx | | sx mx ex], y as [sy | sy | | sy my ey];
    try reflexivity; try (now destruct sx, sy).
  unfold add, SFadd. now rewrite Z.min_comm, Z.add_comm.
Qed.

(** What rounding a magnitude with a plus sign can give. *)
Lemma binary_round_aux_plus_cases (m e : Z) (l : location) :
  let r := binary_round_aux prec emax false m e l in
  r = S754_zero false \/ (exists m' e', r = S754_finite false m' e')
  \/ r = S754_infinity false \/ r = S754_nan.
Proof.
  cbv zeta. unfold binary_round_aux.
  destruct (shr_fexp prec emax m e l) as [mrs1 e1].
  destruct (shr_fexp prec emax _ e1 loc_Exact) as [mrs2 e2].
  destruct (shr_m mrs2) as [| p | p]; [now left | | now right; right; right].
  destruct (e2 <=? emax - prec); [right; left; now eexists _, _ | now right; right; left].
Qed.

Lemma of_Z_positive_cases (q : Z) :
  0 < q ->
  of_Z q = S754_zero false \/ (exists m e, of_Z q = S754_finite false m e)
  \/ of_Z q = S754_infinity false \/ of_Z q = S754_nan.
Proof.
  intros Hq. destruct q as [| p | p]; try lia.
  unfold of_Z, binary_normalize, binary_round.
  destruct (shl_align _ _ _) as [mz ez].
  apply binary_round_aux_plus_cases.
Qed.

(** A number that is not below 0, times a positive count, is not below 0. *)
Lemma mul_count_not_negative (x : float64) (q : Z) :
  negative x = false -> 0 < q -> negative (mul x (of_Z q)) = false.
Proof.
  intros Hx Hq.
  destruct (of_Z_positive_cases q Hq) as [-> | [(m & e & ->) | [-> | ->]]];
    destruct (not_negative_cases x Hx) as [-> | [-> | [[s ->] | (mx & ex & ->)]]];
    try reflexivity; try (now destruct s).
  unfold mul, SFmul. cbn [xorb]. apply binary_round_aux_plus.
Qed.

(** X6.  [Add] is commutative: [m.Add(other)] and [other.Add(m)] return the
    same money and the same error. *)
Theorem Add_commutative (m other : Money) : Add m other = Add other m.
Proof.
  unfold Add. rewrite (String.eqb_sym (currency other) (currency m)).
  destruct (String.eqb_spec (currency m) (currency other)) as [He | Hne];
    cbn [negb]; [| reflexivity].
  now rewrite He, add_comm.
Qed.

(** X7.  [NewOrderItem] refuses a quantity that is not positive.  For an
    item it builds from a price that is not negative, [Total], which drops
    the error of [NewMoney], never meets that error: the total is the price
    times the quantity, in the currency of the price (USD when that is
    empty), and is not negative. *)
Theorem Total_of_a_built_item (productID productName : string) (quantity : Z)
    (price : Money) :
  (quantity <= 0 ->
   NewOrderItem productID productName quantity price
   = inr (errors_New "quantity must be positive"))
  /\ (forall i : OrderItem,
        NewOrderItem productID productName quantity price = inl i ->
        negative (amount price) = false ->
        0 < quantity
        /\ Total i
           = {| amount := mul (amount price) (of_Z quantity);
                currency := if String.eqb (currency price) "" then "USD"
                            else currency price |}
        /\ negative (amount (Total i)) = false).
Proof.
  unfold NewOrderItem. split.
  - intros Hq. apply Z.leb_le in Hq. now rewrite Hq.
  - intros i. destruct (Z.leb_spec quantity 0) as [Hq | Hq]; [discriminate |].
    intros [= <-] Hprice.
    pose proof (mul_count_not_negative _ _ Hprice Hq) as Hneg.
    unfold Total, Amount, Currency.
    cbn [Integration.order.price Integration.order.quantity].
    rewrite NewMoney_ok by assumption. cbn [fst amount]. now repeat split.
Qed.

(** The loop of [NewOrder] keeps the running total in USD, so it gets
    through only if every item is priced in USD (or in no currency). *)
Lemma add_totals_USD (items : list OrderItem) :
  forall total t : Money,
    currency total = "USD" -> negative (amount total) = false ->
    add_totals total items = inl t ->
    currency t = "USD" /\ negative (amount t) = false
    /\ Forall (fun i => currency (price i) = "" \/ currency (price i) = "USD") items.
Proof.
  induction items as [| item rest IH]; intros total t Hcur Hneg Hrun.
  - injection Hrun as <-. now repeat split.
  - cbn [add_totals] in Hrun. unfold Add in Hrun. rewrite Hcur in Hrun.
    destruct (String.eqb_spec "USD" (currency (Total item))) as [He | Hne];
      cbn [negb] in Hrun; [| discriminate].
    destruct (negative (add (amount total) (amount (Total item)))) eqn:Hsum.
    { rewrite NewMoney_negative in Hrun by assumption. discriminate. }
    rewrite NewMoney_ok in Hrun by assumption. cbn [String.eqb Ascii.eqb] in Hrun.
    apply IH in Hrun; [| reflexivity | exact Hsum].
    destruct Hrun as (Ht & Hnt & Hrest). repeat split; try assumption.
    constructor; [| exact Hrest].
    unfold Total, Currency in He.
    destruct (negative (mul (Amount (price item)) (of_Z (quantity item)))) eqn:Hm.
    + rewrite NewMoney_negative in He by assumption. discriminate.
    + rewrite NewMoney_ok in He by assumption. cbn [fst currency] in He.
      destruct (String.eqb_spec (currency (price item)) "") as [Hc | Hc];
        [now left | now right].
Qed.

Section NewOrders.
Context {W : Type} {clock : Clock W} {uuid : Uuid W}.

(** X8.  [NewOrder] refuses an empty list of items, and on every error it
    has read neither the clock nor the id source.  An order it returns is
    PENDING, has the customer and the items it was given, the same
    [createdAt] and [updatedAt], and a total in USD that is not negative;
    and every one of its items is priced in USD or in no currency: an item
    in another currency makes [NewOrder] fail. *)
Theorem NewOrder_result (c : CustomerID) (items : list OrderItem) (w : W) :
  (items = [] ->
   NewOrder c items w = (inr (errors_New "order must have at least one item"), w))
  /\ (forall err w', NewOrder c items w = (inr err, w') -> w' = w)
  /\ (forall o w',
        NewOrder c items w = (inl o, w') ->
        status o = OrderStatusPending
        /\ customerID o = c /\ Integration.order.items o = items /\ items <> []
        /\ createdAt o = updatedAt o
        /\ currency (totalAmount o) = "USD"
        /\ negative (amount (totalAmount o)) = false
        /\ Forall (fun i => currency (price i) = "" \/ currency (price i) = "USD") items).
Proof.
  split; [| split].
  - now intros ->.
  - intros err w'. unfold NewOrder.
    destruct (Z.of_nat (length items) =? 0); [now intros [= _ <-] |].
    cbn [NewMoney ltb zero SFltb SFcompare String.eqb].
    destruct (add_totals _ items) as [total | e]; [| now intros [= _ <-]].
    unfold bind, ret, NewOrderID, bind.
    destruct (time_Now w) as [now w1]. destruct (uuid_New w1). discriminate.
  - intros o w'. unfold NewOrder.
    destruct (Z.eqb_spec (Z.of_nat (length items)) 0) as [He | Hne]; [discriminate |].
    replace (NewMoney zero "USD") with ({| amount := zero; currency := "USD" |}, @None error)
      by reflexivity.
    destruct (add_totals _ items) as [total | e] eqn:Htotals; [| discriminate].
    apply add_totals_USD in Htotals; [| reflexivity | reflexivity].
    destruct Htotals as (Hcur & Hneg & Hall).
    unfold bind, ret, NewOrderID, bind.
    destruct (time_Now w) as [now w1]. destruct (uuid_New w1) as [s w2].
    intros [= <- <-]. cbn. repeat split; try assumption.
    intros ->. now apply Hne.
Qed.

End NewOrders.

(** A run of X7: two mice at 29 dollars. *)
Lemma Total_of_a_built_item_example :
  Total mouse = examples.dollars 58.
Proof.
  exact (proj1 (proj2 (proj2 (Total_of_a_built_item "product-2" "Mouse" 2
                                (examples.dollars 29)) mouse eq_refl eq_refl))).
Defined.

(** Runs of X8: a laptop and two mice make a pending order of 1057
    dollars, created at tick 7; an order with no items is refused. *)
Lemma NewOrder_result_example :
  NewOrder (W := Ticks) (NewCustomerID "customer-123") [] 7
  = (inr (errors_New "order must have at least one item"), 7)
  /\ exists o : Order,
       NewOrder (W := Ticks) (NewCustomerID "customer-123") [laptop_item; mouse] 7
       = (inl o, 8)
       /\ totalAmount o = examples.dollars 1057
       /\ createdAt o = 7
       /\ status o = "PENDING".
Proof.
  split.
  - exact (proj1 (NewOrder_result (W := Ticks) (NewCustomerID "customer-123") [] 7)
             eq_refl).
  - eexists. split; [reflexivity |]. split; [reflexivity |]. split; [reflexivity |].
    exact (proj1 (proj2 (proj2 (NewOrder_result (W := Ticks)
                                  (NewCustomerID "customer-123") [laptop_item; mouse] 7))
                    _ 8 eq_refl)).
Defined.

End OrderValueProofs.

(** ** integration-example: publishing, paying and shipping *)

Module OrderServiceProofs.
Import Integration.order Integration.spy Integration.memory OrderProofs OrderLifecycle.

(** X9.  [Publish] tells the subscribers in the order in which they
    subscribed, each of them once: publishing after one more [Subscribe] is
    publishing to the earlier subscribers and then telling the new one; a
    publisher without subscribers does nothing. *)
Theorem Publish_after_Subscribe {W : Type} (p : Integration.patterns.EventPublisher W)
    (observer : Integration.patterns.EventObserver W) (event : Integration.patterns.Event)
    (w : W) :
  Integration.patterns.Publish (Integration.patterns.Subscribe p observer) event w
  = observer event (snd (Integration.patterns.Publish p event w))
  /\ Integration.patterns.Publish Integration.patterns.NewEventPublisher event w = (tt, w).
Proof.
  split; [| reflexivity].
  unfold Integration.patterns.Publish, Integration.patterns.Subscribe.
  cbn [Integration.patterns.observers].
  generalize (Integration.patterns.observers p). intros obs. revert w.
  induction obs as [| ob obs IH]; intros w.
  - cbn. unfold bind. now destruct (observer event w) as [[] w'].
  - cbn [app Integration.patterns.notify]. unfold bind.
    destruct (ob event w) as [u w1]. apply IH.
Qed.

(** What the factory supports. *)
Lemma CreatePayment_supported (paymentMethod : string) :
  (exists strategy, Integration.patterns.CreatePayment paymentMethod = inl strategy)
  \/ (paymentMethod <> "credit_card" /\ paymentMethod <> "paypal"
      /\ paymentMethod <> "crypto"
      /\ Integration.patterns.CreatePayment paymentMethod
         = inr (errors_New "unsupported payment type")).
Proof.
  unfold Integration.patterns.CreatePayment.
  destruct (String.eqb_spec paymentMethod "credit_card"); [left; now eexists |].
  destruct (String.eqb_spec paymentMethod "paypal"); [left; now eexists |].
  destruct (String.eqb_spec paymentMethod "crypto"); [left; now eexists |].
  right. now repeat split.
Qed.

Section Service.
Context {W : Type} {clock : Clock W} {orderRepo : OrderRepository W}.

Lemma spy_MarkAsPaid_run (o : Order) (w : W) (log : list Call) :
  MarkAsPaid (W := Spied W) o (w, log)
  = (fst (MarkAsPaid o w), (snd (MarkAsPaid o w), log)).
Proof.
  unfold MarkAsPaid. destruct (negb _); [reflexivity |].
  unfold bind, ret. cbn. unfold unlogged. cbn. now destruct (time_Now w).
Qed.

Lemma spy_Ship_run (o : Order) (w : W) (log : list Call) :
  Ship (W := Spied W) o (w, log) = (fst (Ship o w), (snd (Ship o w), log)).
Proof.
  unfold Ship. destruct (negb _); [reflexivity |].
  unfold bind, ret. cbn. unfold unlogged. cbn. now destruct (time_Now w).
Qed.

Lemma spy_Publish_run (uc : Integration.usecase.OrderUseCase W)
    (event : Integration.patterns.Event) (w : W) (log : list Call) :
  Integration.patterns.Publish (Integration.usecase.eventPublisher (spied uc)) event (w, log)
  = (tt, (snd (Integration.patterns.Publish (Integration.usecase.eventPublisher uc) event w),
          log)).
Proof.
  unfold Integration.patterns.Publish, spied. cbn.
  generalize (Integration.patterns.observers (Integration.usecase.eventPublisher uc)).
  intros obs. revert w.
  induction obs as [| ob obs IH]; intros w; [reflexivity |].
  cbn [List.map Integration.patterns.notify]. unfold bind.
  unfold unlogged at 1. cbn [fst snd]. destruct (ob event w) as [u w']. apply IH.
Qed.

(** X10.  [ProcessPayment], over a recording repository.  A failed lookup,
    a payment method the factory does not support and an order that is not
    PENDING each end the use case with that error, before anything is
    written and before any subscriber is told.  Otherwise [Update] is
    called once, on the found order with the status PAID and nothing else
    changed but [updatedAt]; its error is returned without an event; and
    only when it succeeds is the event OrderPaid published, once, with the
    order's id, the name of the strategy and the total. *)
Theorem ProcessPayment_outcome (uc : Integration.usecase.OrderUseCase W)
    (orderID paymentMethod : string) (w : W) :
  let run := Integration.usecase.ProcessPayment (spied uc) orderID paymentMethod (w, []) in
  let lookup := CallFindByID OrderID_zero in
  (forall err w1,
      FindByID OrderID_zero w = (inr err, w1) -> run = (Some err, (w1, [lookup])))
  /\ (forall ord w1,
        FindByID OrderID_zero w = (inl ord, w1) ->
        (forall err, Integration.patterns.CreatePayment paymentMethod = inr err ->
                     run = (Some err, (w1, [lookup])))
        /\ (forall strategy,
              Integration.patterns.CreatePayment paymentMethod = inl strategy ->
              (status ord <> OrderStatusPending ->
               run = (Some (errors_New "only pending orders can be marked as paid"),
                      (w1, [lookup])))
              /\ (status ord = OrderStatusPending ->
                  let paid := transition ord OrderStatusPaid (fst (time_Now w1)) in
                  let answer := Update paid (snd (time_Now w1)) in
                  let stored := snd (fst answer) in
                  snd (snd run) = [lookup; CallUpdate paid]
                  /\ (forall err, fst (fst answer) = Some err ->
                                  run = (Some err, (snd answer, [lookup; CallUpdate paid])))
                  /\ (fst (fst answer) = None ->
                      fst run = None
                      /\ fst (snd run)
                         = snd (Integration.patterns.Publish
                                  (Integration.usecase.eventPublisher uc)
                                  {| Integration.patterns.Event_Type := "OrderPaid";
                                     Integration.patterns.Event_Data :=
                                       Integration.patterns.OrderPaid
                                         {| paid_OrderID := OrderID_String (ID stored);
                                            paid_PaymentMethod :=
                                              Integration.patterns.GetName strategy;
                                            paid_Amount := Amount (TotalAmount stored) |} |}
                                  (snd answer)))))).
Proof.
  cbv zeta. split.
  - intros err w1 Hfind. unfold Integration.usecase.ProcessPayment, bind.
    now rewrite OrderUseCaseProofs.spy_FindByID, Hfind.
  - intros ord w1 Hfind.
    assert (Hstart : forall k : Order + error -> M (Spied W) (option error),
               bind (FindByID (W := Spied W) OrderID_zero) k (w, [])
               = k (inl ord) (w1, [CallFindByID OrderID_zero])).
    { intros k. unfold bind. now rewrite OrderUseCaseProofs.spy_FindByID, Hfind. }
    unfold Integration.usecase.ProcessPayment. rewrite Hstart. split.
    + intros err ->. reflexivity.
    + intros strategy ->.
      replace (Integration.patterns.ProcessPayment strategy _ _) with (@None error)
        by now destruct strategy.
      split.
      * intros Hne. unfold bind.
        now rewrite spy_MarkAsPaid_run, MarkAsPaid_refused by assumption.
      * intros Hp.
        match goal with
        | |- snd (snd ?r) = _ /\ _ => remember r as run eqn:Hrun
        end.
        unfold bind in Hrun. rewrite spy_MarkAsPaid_run in Hrun.
        rewrite MarkAsPaid_pending in Hrun by assumption. cbn [fst snd] in Hrun.
        rewrite OrderUseCaseProofs.spy_order_Update in Hrun. cbn [fst snd app] in Hrun.
        revert Hrun.
        destruct (Update _ (snd (time_Now w1))) as [[[err |] stored] w3];
          cbn [fst snd ret]; intros ->; cbn [fst snd].
        -- repeat split; [now intros e [= ->] | discriminate | discriminate].
        -- rewrite spy_Publish_run. cbn [fst snd]. repeat split. discriminate.
Qed.

(** X11.  [ShipOrder], over a recording repository.  A failed lookup and
    an order that is not PAID end the use case with that error before
    anything is written.  Otherwise [Update] is called once, on the found
    order with the status SHIPPED, [updatedAt] the time of the call and
    nothing else changed; its error is returned without an event;
    when it succeeds the event OrderShipped is published with the order's
    id and the tracking number. *)
Theorem ShipOrder_outcome (uc : Integration.usecase.OrderUseCase W)
    (orderID trackingNumber : string) (w : W) :
  let run := Integration.usecase.ShipOrder (spied uc) orderID trackingNumber (w, []) in
  let lookup := CallFindByID OrderID_zero in
  (forall err w1,
      FindByID OrderID_zero w = (inr err, w1) -> run = (Some err, (w1, [lookup])))
  /\ (forall ord w1,
        FindByID OrderID_zero w = (inl ord, w1) ->
        (status ord <> OrderStatusPaid ->
         run = (Some (errors_New "only paid orders can be shipped"), (w1, [lookup])))
        /\ (status ord = OrderStatusPaid ->
            let shipped :=
              {| id := id ord; customerID := customerID ord; items := items ord;
                 totalAmount := totalAmount ord; status := OrderStatusShipped;
                 createdAt := createdAt ord; updatedAt := fst (time_Now w1) |} in
            let answer := Update shipped (snd (time_Now w1)) in
            let stored := snd (fst answer) in
            snd (snd run) = [lookup; CallUpdate shipped]
            /\ (forall err, fst (fst answer) = Some err ->
                            run = (Some err, (snd answer, [lookup; CallUpdate shipped])))
            /\ (fst (fst answer) = None ->
                fst run = None
                /\ fst (snd run)
                   = snd (Integration.patterns.Publish
                            (Integration.usecase.eventPublisher uc)
                            {| Integration.patterns.Event_Type := "OrderShipped";
                               Integration.patterns.Event_Data :=
                                 Integration.patterns.OrderShipped
                                   {| shipped_OrderID := OrderID_String (ID stored);
                                      shipped_TrackingNumber := trackingNumber |} |}
                            (snd answer))))).
Proof.
  cbv zeta. split.
  - intros err w1 Hfind. unfold Integration.usecase.ShipOrder, bind.
    now rewrite OrderUseCaseProofs.spy_FindByID, Hfind.
  - intros ord w1 Hfind.
    assert (Hstart : forall k : Order + error -> M (Spied W) (option error),
               bind (FindByID (W := Spied W) OrderID_zero) k (w, [])
               = k (inl ord) (w1, [CallFindByID OrderID_zero])).
    { intros k. unfold bind. now rewrite OrderUseCaseProofs.spy_FindByID, Hfind. }
    unfold Integration.usecase.ShipOrder. rewrite Hstart.
    split.
    + intros Hne. unfold bind.
      now rewrite spy_Ship_run, Ship_refused by assumption.
    + intros Hp.
      match goal with
      | |- snd (snd ?r) = _ /\ _ => remember r as run eqn:Hrun
      end.
      unfold bind in Hrun. rewrite spy_Ship_run in Hrun.
      rewrite Ship_paid in Hrun by assumption. cbn [fst snd] in Hrun.
      rewrite OrderUseCaseProofs.spy_order_Update in Hrun. cbn [fst snd app] in Hrun.
      unfold transition in Hrun.
      revert Hrun.
      destruct (Update _ (snd (time_Now w1))) as [[[err |] stored] w3];
        cbn [fst snd ret]; intros ->; cbn [fst snd].
      * repeat split; [now intros e [= ->] | discriminate | discriminate].
      * rewrite spy_Publish_run. cbn [fst snd]. repeat split. discriminate.
Qed.

End Service.

End OrderServiceProofs.

(** ** integration-example: creating an order *)

Module CreateOrderProofs.
Import Float64 Integration.order Integration.usecase Integration.spy Integration.memory.
Import IntegrationInfra more_examples MoneyProofs OrderValueProofs.

Lemma convert_items_refused (dtos : list OrderItemDTO) :
  forall acc, Exists (fun d => negative (dto_Price d) = true \/ dto_Quantity d <= 0) dtos -> exists err, convert_items dtos acc = inr err.
Proof.
  induction dtos as [| d rest IH]; intros acc Hbad; [inversion Hbad |].
  cbn [convert_items].
  destruct (negative (dto_Price d)) eqn:Hprice.
  { rewrite NewMoney_negative by assumption. now eexists. }
  rewrite NewMoney_ok by assumption. unfold NewOrderItem.
  destruct (Z.leb_spec (dto_Quantity d) 0) as [Hq | Hq]; [now eexists |].
  apply IH. inversion Hbad as [? ? [Hp | Hp] | ? ? Hrest]; subst.
  - rewrite Hp in Hprice. discriminate.
  - lia.
  - exact Hrest.
Qed.

Lemma convert_items_accepted (dtos : list OrderItemDTO) :
  forall acc items,
    convert_items dtos acc = inl items ->
    List.length items = (List.length acc + List.length dtos)%nat
    /\ Forall (fun d => negative (dto_Price d) = false /\ 0 < dto_Quantity d) dtos.
Proof.
  induction dtos as [| d rest IH]; intros acc items Hrun.
  - injection Hrun as <-. split; [now rewrite Nat.add_0_r | constructor].
  - cbn [convert_items] in Hrun.
    destruct (negative (dto_Price d)) eqn:Hprice.
    { rewrite NewMoney_negative in Hrun by assumption. discriminate. }
    rewrite NewMoney_ok in Hrun by assumption. unfold NewOrderItem in Hrun.
    destruct (Z.leb_spec (dto_Quantity d) 0) as [Hq | Hq]; [discriminate |].
    apply IH in Hrun. destruct Hrun as [Hlen Hall].
    rewrite length_app in Hlen. cbn [List.length] in *. split; [lia |].
    constructor; [now split | exact Hall].
Qed.

Section Creating.
Context {W : Type} {clock : Clock W} {uuid : Uuid W} {orderRepo : OrderRepository W}.

Lemma spy_NewOrder_run (c : CustomerID) (items : list OrderItem) (w : W) (log : list Call) :
  NewOrder (W := Spied W) c items (w, log)
  = (fst (NewOrder c items w), (snd (NewOrder c items w), log)).
Proof.
  unfold NewOrder.
  destruct (Z.of_nat (List.length items) =? 0); [reflexivity |].
  destruct (NewMoney zero "USD") as [total [err |]]; [reflexivity |].
  destruct (add_totals total items) as [t | err]; [| reflexivity].
  unfold bind, ret, NewOrderID, bind, ret. cbn. unfold unlogged. cbn.
  destruct (time_Now w) as [now w1]. cbn [fst snd]. now destruct (uuid_New w1).
Qed.

Lemma spy_Save (o : Order) (w : W) (log : list Call) :
  Save (W := Spied W) o (w, log)
  = (fst (Save o w), (snd (Save o w), (log ++ [CallSave o])%list)).
Proof. cbn. unfold logged. cbn. now destruct (Save o w). Qed.

(** X12.  [CreateOrder], over a recording repository.  A request with no
    items, or with an item whose price is below 0 or whose quantity is not
    positive, is turned down before the clock, the id source or the
    repository are touched.  The repository sees at most one call, a [Save]
    of a PENDING order of that customer with one item per item of the
    request and a total in USD; and an order is returned only after that
    [Save]. *)
Theorem CreateOrder_outcome (uc : OrderUseCase W) (dto : CreateOrderDTO) (w : W) :
  let run := CreateOrder (spied uc) dto (w, []) in
  (dto_Items dto = [] \/ Exists (fun d => negative (dto_Price d) = true \/ dto_Quantity d <= 0) (dto_Items dto) ->
   exists err, run = (inr err, (w, [])))
  /\ (snd (snd run) = []
      \/ exists o : Order,
           snd (snd run) = [CallSave o]
           /\ status o = OrderStatusPending
           /\ customerID o = NewCustomerID (dto_CustomerID dto)
           /\ List.length (items o) = List.length (dto_Items dto)
           /\ currency (totalAmount o) = "USD")
  /\ (forall o : Order,
        fst run = inl o ->
        dto_Items dto <> []
        /\ Forall (fun d => negative (dto_Price d) = false /\ 0 < dto_Quantity d)
                  (dto_Items dto)
        /\ exists saved, snd (snd run) = [CallSave saved]).
Proof.
  intros run. subst run. unfold CreateOrder, bind.
  destruct (convert_items (dto_Items dto) []) as [items | err] eqn:Hconvert.
  - pose proof (convert_items_accepted _ _ _ Hconvert) as [Hlen Hgood].
    cbn [List.length Nat.add] in Hlen.
    rewrite spy_NewOrder_run.
    pose proof (NewOrder_result (NewCustomerID (dto_CustomerID dto)) items w)
      as (Hempty & Hfail & Hok).
    destruct (NewOrder (NewCustomerID (dto_CustomerID dto)) items w) as [[o | err] w1]
      eqn:Hnew; cbn [fst snd].
    + destruct (Hok o w1 eq_refl) as (Hst & Hc & Hitems & Hne & _ & Hcur & _).
      assert (Hsome : dto_Items dto <> []).
      { intros He. rewrite He in Hlen. destruct items; [now apply Hne | discriminate]. }
      assert (Hgone : ~ (dto_Items dto = []
                         \/ Exists (fun d => negative (dto_Price d) = true
                                              \/ dto_Quantity d <= 0) (dto_Items dto))).
      { intros [He | Hbad]; [contradiction |].
        destruct (convert_items_refused _ [] Hbad) as [e He].
        rewrite He in Hconvert. discriminate. }
      assert (Hsaved : status o = OrderStatusPending
                       /\ customerID o = NewCustomerID (dto_CustomerID dto)
                       /\ List.length (Integration.order.items o)
                          = List.length (dto_Items dto)
                       /\ currency (totalAmount o) = "USD").
      { repeat split; try assumption. now rewrite Hitems. }
      rewrite spy_Save. cbn [fst snd app].
      destruct (Save o w1) as [[[err |] saved] w2]; cbn [fst snd ret].
      * split; [now intros H; contradiction Hgone |].
        split; [right; now exists o | discriminate].
      * rewrite OrderServiceProofs.spy_Publish_run. cbn [fst snd ret].
        split; [now intros H; contradiction Hgone |].
        split; [right; now exists o |].
        intros o' _. repeat split; try assumption. now exists o.
    + pose proof (Hfail err w1 eq_refl) as ->.
      split; [| split].
      * intros _. now exists err.
      * now left.
      * discriminate.
  - split; [| split].
    + intros _. now exists err.
    + now left.
    + discriminate.
Qed.

End Creating.

(** Runs of X12 on the store in memory: a basket with two mice is saved
    and announced; a basket with no mice at all, or an empty one, is turned
    down and the store is as it was. *)
Lemma CreateOrder_outcome_example :
  (exists err,
      CreateOrder (spied service) (basket []) (examples.orders, [])
      = (inr err, (examples.orders, [])))
  /\ (exists err,
        CreateOrder (spied service) (basket [two_mice; no_mice]) (examples.orders, [])
        = (inr err, (examples.orders, [])))
  /\ exists o : Order,
       fst (CreateOrder service (basket [two_mice]) examples.orders) = inl o
       /\ totalAmount o = examples.dollars 58.
Proof.
  split; [| split].
  - exact (proj1 (CreateOrder_outcome service (basket []) examples.orders)
             (or_introl eq_refl)).
  - apply (proj1 (CreateOrder_outcome service (basket [two_mice; no_mice])
                    examples.orders)).
    right. apply Exists_cons_tl, Exists_cons_hd. right. cbn. lia.
  - eexists. split; reflexivity.
Defined.

End CreateOrderProofs.

(** ** integration-example: the service on its own repository *)

Module OrderInfraProofs.
Import Integration.order IntegrationInfra IntegrationInfra.repository more_examples.

Section OnTheDatabase.
Context {W : Type} {clock : Clock W} {db : DB W}.
Variable json_Marshal : list OrderItem -> string.

(** X13.  On the repository of the example, whose [FindByID] is a stub that
    answers [sql.ErrNoRows], no order is ever found: [GetOrder],
    [ProcessPayment] and [ShipOrder] fail with [sql.ErrNoRows] for every id,
    payment method and tracking number, and execute no statement; an order
    that [Save] has just written is not found either; and
    [GetCustomerOrders] answers with no orders and no error. *)
Theorem no_order_is_ever_found (uc : Integration.usecase.OrderUseCase W)
    (orderID paymentMethod trackingNumber customer : string) (o : Order) (w : W) :
  let repo := NewOrderRepository json_Marshal in
  Integration.usecase.GetOrder (orderRepo := repo) orderID w = (inr sql_ErrNoRows, w)
  /\ Integration.usecase.ProcessPayment (orderRepo := repo) uc orderID paymentMethod w
     = (Some sql_ErrNoRows, w)
  /\ Integration.usecase.ShipOrder (orderRepo := repo) uc orderID trackingNumber w
     = (Some sql_ErrNoRows, w)
  /\ Integration.usecase.GetCustomerOrders (orderRepo := repo) customer w = (([], None), w)
  /\ bind (Integration.order.Save (OrderRepository := repo) o)
          (fun _ => Integration.order.FindByID (OrderRepository := repo) (id o)) w
     = (inr sql_ErrNoRows, snd (Integration.order.Save (OrderRepository := repo) o w)).
Proof.
  cbv zeta. repeat split.
  unfold bind. now destruct (Integration.order.Save _ w).
Qed.

Context {uuid : Uuid W} {C : Type} {echo : handler.Context C}.

(** X14.  So, over HTTP: [GET /orders/:id] answers 404 for every request,
    and [POST /orders/:id/payment] answers 400 for every request, with
    "invalid request" when the body does not bind and the text of
    [sql.ErrNoRows] when it does; neither executes a statement. *)
Theorem order_requests_always_fail (uc : Integration.usecase.OrderUseCase W) (c : C)
    (w : W) :
  let repo := NewOrderRepository json_Marshal in
  handler.GetOrder (orderRepo := repo) c w
  = ({| handler.Status := 404; handler.Payload := handler.JSONError "order not found" |}, w)
  /\ handler.Status (fst (handler.ProcessPayment (orderRepo := repo) uc c w)) = 400
  /\ snd (handler.ProcessPayment (orderRepo := repo) uc c w) = w
  /\ (forall err, handler.BindProcessPayment c = inr err ->
        handler.Payload (fst (handler.ProcessPayment (orderRepo := repo) uc c w))
        = handler.JSONError "invalid request")
  /\ (forall req, handler.BindProcessPayment c = inl req ->
        handler.Payload (fst (handler.ProcessPayment (orderRepo := repo) uc c w))
        = handler.JSONError "sql: no rows in result set").
Proof.
  cbv zeta. split; [reflexivity |]. unfold handler.ProcessPayment.
  destruct (handler.BindProcessPayment c) as [req | err]; repeat split;
    try discriminate; reflexivity.
Qed.

End OnTheDatabase.

(** A run of X13 and X14: an order is created, which executes one
    statement, and the same service then finds no order to show or to pay
    for. *)
Lemma no_order_is_ever_found_example :
  let repo := NewOrderRepository (W := Journal) items_as_json in
  let created := Integration.usecase.CreateOrder (orderRepo := repo) nobody
                   (basket [two_mice]) blank_journal in
  (exists o, fst created = inl o /\ status o = "PENDING")
  /\ List.length (journal_statements (snd created)) = 1%nat
  /\ Integration.usecase.ProcessPayment (orderRepo := repo) nobody
       "7d4f7c30-0000-4000-8000-000000000001" "paypal" (snd created)
     = (Some sql_ErrNoRows, snd created).
Proof.
  cbv zeta. split; [eexists; split; reflexivity |]. split; [reflexivity |].
  exact (proj1 (proj2 (no_order_is_ever_found (W := Journal) items_as_json nobody
                         "7d4f7c30-0000-4000-8000-000000000001" "paypal" "" ""
                         (examples.order_in "PENDING")
                         (snd (Integration.usecase.CreateOrder
                                 (orderRepo := NewOrderRepository (W := Journal)
                                                 items_as_json)
                                 nobody (basket [two_mice]) blank_journal))))).
Defined.

Lemma order_requests_always_fail_example :
  handler.Status (fst (handler.GetOrder
                         (orderRepo := NewOrderRepository (W := Journal) items_as_json)
                         (pay_with "order-1" "paypal") blank_journal)) = 404
  /\ handler.Status (fst (handler.ProcessPayment
                            (orderRepo := NewOrderRepository (W := Journal) items_as_json)
                            nobody (pay_with "order-1" "paypal") blank_journal)) = 400.
Proof.
  pose proof (order_requests_always_fail (W := Journal) items_as_json nobody
                (pay_with "order-1" "paypal") blank_journal) as H.
  cbv zeta in H. destruct H as (Hget & Hpay & _).
  split; [now rewrite Hget | exact Hpay].
Defined.

End OrderInfraProofs.

(** ** clean-architecture-example: the task and the other use cases *)

Module TaskServiceProofs.
Import CleanArch.domain CleanArch.spy CleanArch.memory TaskProofs.

Section Tasks.
Context {W : Type} {clock : Clock W}.

(** X15.  [NewTask] checks the title first: a bad title is reported even
    when the description is too long as well.  On an error the clock is not
    read.  A task it returns has the given title and description, which
    pass both checks, is not completed, has the id 0 and the same
    [CreatedAt] and [UpdatedAt], the time of the call. *)
Theorem NewTask_result (title description : string) (w : W) :
  (forall err, ValidateTitle title = Some err ->
               NewTask title description w = (inr err, w))
  /\ (ValidateTitle title = None -> 1000 < len description ->
      NewTask title description w = (inr ErrDescriptionTooLong, w))
  /\ (forall t w',
        NewTask title description w = (inl t, w') ->
        t = {| ID := 0; Title := title; Description := description; Completed := false;
               CreatedAt := fst (time_Now w); UpdatedAt := fst (time_Now w) |}
        /\ w' = snd (time_Now w)
        /\ title <> "" /\ len title <= 200 /\ len description <= 1000).
Proof.
  unfold NewTask. split; [| split].
  - now intros err ->.
  - intros -> Hlong. now rewrite ValidateDescription_long.
  - intros t w'.
    destruct (ValidateTitle title) eqn:Ht; [discriminate |].
    destruct (ValidateDescription description) eqn:Hd; [discriminate |].
    unfold bind, ret. destruct (time_Now w) as [now w1]. intros [= <- <-].
    apply ValidateTitle_None in Ht. apply ValidateDescription_None in Hd.
    destruct Ht. now repeat split.
Qed.


(** X17.  [MarkAsCompleted] and [MarkAsIncomplete] set the completion
    whatever it was, stamp [UpdatedAt] with the time of the call and leave
    the id, the title, the description and [CreatedAt] alone; marking
    incomplete after marking completed leaves the task incomplete. *)
Theorem completion_marks (t : Task) (w : W) :
  let done := fst (MarkAsCompleted t w) in
  let undone := fst (MarkAsIncomplete t w) in
  (Completed done = true /\ UpdatedAt done = fst (time_Now w)
   /\ ID done = ID t /\ Title done = Title t /\ Description done = Description t
   /\ CreatedAt done = CreatedAt t)
  /\ (Completed undone = false /\ UpdatedAt undone = fst (time_Now w)
      /\ ID undone = ID t /\ Title undone = Title t
      /\ Description undone = Description t /\ CreatedAt undone = CreatedAt t)
  /\ Completed (fst (bind (MarkAsCompleted t) MarkAsIncomplete w)) = false.
Proof.
  cbv zeta. unfold MarkAsCompleted, MarkAsIncomplete, bind, ret.
  destruct (time_Now w) as [now w1]. cbn [fst snd].
  destruct (time_Now w1) as [now1 w2]. now repeat split.
Qed.

End Tasks.

Section UseCases.
Context {W : Type} {clock : Clock W} {taskRepo : TaskRepository W}.

Lemma spy_Create (t : Task) (w : W) (log : list Call) :
  Create (W := Spied W) t (w, log)
  = (fst (Create t w), (snd (Create t w), (log ++ [CallCreate t])%list)).
Proof. cbn. unfold logged. cbn. now destruct (Create t w). Qed.

Lemma spy_Delete (id : Z) (w : W) (log : list Call) :
  Delete (W := Spied W) id (w, log)
  = (fst (Delete id w), (snd (Delete id w), (log ++ [CallDelete id])%list)).
Proof. cbn. unfold logged. cbn. now destruct (Delete id w). Qed.

Lemma spy_NewTask_run (title description : string) (w : W) (log : list Call) :
  NewTask (W := Spied W) title description (w, log)
  = (fst (NewTask title description w), (snd (NewTask title description w), log)).
Proof.
  unfold NewTask. destruct (ValidateTitle title); [reflexivity |].
  destruct (ValidateDescription description); [reflexivity |].
  unfold bind, ret. rewrite spy_time_Now. cbn [fst snd]. now destruct (time_Now w).
Qed.

Lemma spy_MarkAsCompleted_run (t : Task) (w : W) (log : list Call) :
  MarkAsCompleted (W := Spied W) t (w, log)
  = (fst (MarkAsCompleted t w), (snd (MarkAsCompleted t w), log)).
Proof.
  unfold MarkAsCompleted, bind, ret. rewrite spy_time_Now. cbn [fst snd].
  now destruct (time_Now w).
Qed.

(** X18.  [CreateTask], over a recording repository.  When a check fails
    (empty or long title, long description) the error of the check is
    returned and the repository sees no call.  Otherwise [Create] is called
    exactly once, on a task that passes the checks, is not completed and has
    the id 0; the error of [Create] is returned as it is, and on success the
    task is returned as [Create] left it (with the id the repository gave
    it). *)
Theorem CreateTask_outcome (input : CleanArch.usecase.CreateTaskInput) (w : W) :
  let title := CleanArch.usecase.create_Title input in
  let description := CleanArch.usecase.create_Description input in
  let run := CleanArch.usecase.CreateTask (W := Spied W) input (w, []) in
  (title = "" \/ 200 < len title \/ 1000 < len description ->
   exists err, run = (inr err, (w, []))
               /\ (err = ErrEmptyTitle \/ err = ErrTitleTooLong
                   \/ err = ErrDescriptionTooLong))
  /\ (title <> "" -> len title <= 200 -> len description <= 1000 ->
      let task := {| ID := 0; Title := title; Description := description;
                     Completed := false; CreatedAt := fst (time_Now w);
                     UpdatedAt := fst (time_Now w) |} in
      let answer := Create task (snd (time_Now w)) in
      snd run = (snd answer, [CallCreate task])
      /\ fst run = match fst (fst answer) with
                   | Some err => inr err
                   | None => inl (snd (fst answer))
                   end).
Proof.
  intros title description run. subst title description run.
  unfold CleanArch.usecase.CreateTask, bind. rewrite spy_NewTask_run.
  pose proof (NewTask_result (CleanArch.usecase.create_Title input)
                (CleanArch.usecase.create_Description input) w) as (Htitle & Hdesc & Hok).
  split.
  - intros Hbad.
    destruct (ValidateTitle (CleanArch.usecase.create_Title input)) as [e |] eqn:Ht.
    + rewrite (Htitle e eq_refl). cbn [fst snd ret]. exists e. split; [reflexivity |].
      unfold ValidateTitle in Ht.
      destruct (String.eqb _ ""); [injection Ht as <-; now left |].
      destruct (200 <? _); [injection Ht as <-; right; now left | discriminate].
    + apply ValidateTitle_None in Ht. destruct Ht as [Hne Hshort].
      destruct Hbad as [H | [H | H]]; [contradiction | lia |].
      rewrite Hdesc by (try apply ValidateTitle_None; auto).
      cbn [fst snd ret]. exists ErrDescriptionTooLong. split; [reflexivity | auto].
  - intros Hne Hshort Hd.
    set (task := {| ID := 0; Title := CleanArch.usecase.create_Title input;
                    Description := CleanArch.usecase.create_Description input;
                    Completed := false; CreatedAt := fst (time_Now w);
                    UpdatedAt := fst (time_Now w) |}).
    assert (Hnew : NewTask (CleanArch.usecase.create_Title input)
                     (CleanArch.usecase.create_Description input) w
                   = (inl task, snd (time_Now w))).
    { unfold NewTask.
      rewrite (proj2 (ValidateTitle_None _) (conj Hne Hshort)).
      rewrite (proj2 (ValidateDescription_None _) Hd).
      unfold bind, ret. subst task. now destruct (time_Now w). }
    rewrite Hnew. cbn [fst snd]. rewrite spy_Create. cbn [fst snd app].
    now destruct (Create task (snd (time_Now w))) as [[[err |] t'] w2].
Qed.

(** X19.  [DeleteTask], over a recording repository: [Delete] is called
    only for a task the lookup found.  When the lookup fails the result is
    [ErrTaskNotFound] and the repository saw the lookup only; when it
    succeeds [Delete] is called once, with the same id, and its error, or
    nil, is the result. *)
Theorem DeleteTask_outcome (id : Z) (w : W) :
  let run := CleanArch.usecase.DeleteTask (W := Spied W) id (w, []) in
  (forall err w1, GetByID id w = (inr err, w1) ->
                  run = (Some ErrTaskNotFound, (w1, [CallGetByID id])))
  /\ (forall task w1, GetByID id w = (inl task, w1) ->
                      run = (fst (Delete id w1),
                             (snd (Delete id w1), [CallGetByID id; CallDelete id]))).
Proof.
  cbv zeta. unfold CleanArch.usecase.DeleteTask, bind. rewrite spy_GetByID.
  split; intros x w1 ->; cbn [fst snd app]; [reflexivity |].
  now rewrite spy_Delete.
Qed.

(** X20.  [CompleteTask], over a recording repository: when the lookup
    fails the result is [ErrTaskNotFound] and nothing is written; when it
    finds a task, [Update] is called exactly once, on that task with
    [Completed] set and [UpdatedAt] stamped and nothing else changed (no
    check is run on its title), and the result is the task as [Update]
    left it, or the error of [Update]. *)
Theorem CompleteTask_outcome (id : Z) (w : W) :
  let run := CleanArch.usecase.CompleteTask (W := Spied W) id (w, []) in
  (forall err w1, GetByID id w = (inr err, w1) ->
                  run = (inr ErrTaskNotFound, (w1, [CallGetByID id])))
  /\ (forall task w1,
        GetByID id w = (inl task, w1) ->
        let completed :=
          {| ID := ID task; Title := Title task; Description := Description task;
             Completed := true; CreatedAt := CreatedAt task;
             UpdatedAt := fst (time_Now w1) |} in
        let answer := Update completed (snd (time_Now w1)) in
        snd run = (snd answer, [CallGetByID id; CallUpdate completed])
        /\ fst run = match fst (fst answer) with
                     | Some err => inr err
                     | None => inl (snd (fst answer))
                     end).
Proof.
  cbv zeta. unfold CleanArch.usecase.CompleteTask, bind. rewrite spy_GetByID.
  split; intros x w1 ->; cbn [fst snd app]; [reflexivity |].
  rewrite spy_MarkAsCompleted_run. unfold MarkAsCompleted, bind, ret.
  destruct (time_Now w1) as [now w2]. cbn [fst snd].
  rewrite spy_Update. cbn [fst snd app].
  now destruct (Update _ w2) as [[[err |] t'] w3].
Qed.

End UseCases.

(** Runs of X15, X16, X18, X19 and X20 on the store in memory. *)
Lemma NewTask_result_example :
  NewTask "" (examples.letters 1001) examples.pantry = (inr ErrEmptyTitle, examples.pantry).
Proof.
  exact (proj1 (NewTask_result "" (examples.letters 1001) examples.pantry)
           ErrEmptyTitle eq_refl).
Defined.


Lemma CreateTask_outcome_example :
  exists err,
    CleanArch.usecase.CreateTask (W := Spied Mem)
      {| CleanArch.usecase.create_Title := "Buy bread";
         CleanArch.usecase.create_Description := examples.letters 1001 |}
      (examples.pantry, [])
    = (inr err, (examples.pantry, []))
    /\ (err = ErrEmptyTitle \/ err = ErrTitleTooLong \/ err = ErrDescriptionTooLong).
Proof.
  apply (proj1 (CreateTask_outcome (W := Mem)
                  {| CleanArch.usecase.create_Title := "Buy bread";
                     CleanArch.usecase.create_Description := examples.letters 1001 |}
                  examples.pantry)).
  right. right. vm_compute. reflexivity.
Defined.

Lemma DeleteTask_outcome_example :
  CleanArch.usecase.DeleteTask (W := Spied Mem) 7 (examples.pantry, [])
  = (Some ErrTaskNotFound, (examples.pantry, [CallGetByID 7]))
  /\ snd (snd (CleanArch.usecase.DeleteTask (W := Spied Mem) 42 (examples.pantry, [])))
     = [CallGetByID 42; CallDelete 42].
Proof.
  split.
  - exact (proj1 (DeleteTask_outcome (W := Mem) 7 examples.pantry)
             no_rows examples.pantry eq_refl).
  - now rewrite (proj2 (DeleteTask_outcome (W := Mem) (taskRepo := MemRepository)
                          42 examples.pantry)
                   examples.groceries examples.pantry eq_refl).
Defined.

Lemma CompleteTask_outcome_example :
  CleanArch.usecase.CompleteTask (W := Spied Mem) 7 (examples.pantry, [])
  = (inr ErrTaskNotFound, (examples.pantry, [CallGetByID 7])).
Proof.
  exact (proj1 (CompleteTask_outcome (W := Mem) 7 examples.pantry)
           no_rows examples.pantry eq_refl).
Defined.

End TaskServiceProofs.

(** ** clean-architecture-example: the other handlers *)

Module TaskHandlerProofs.
Import CleanArch.domain CleanArch.spy CleanArch.memory CleanArch.handler.
Import TaskProofs TaskServiceProofs.

Section Handlers.
Context {W : Type} {clock : Clock W} {taskRepo : TaskRepository W}.
Context {C : Type} {echo : Context C}.
Variable strconv_ParseInt : string -> Z -> Z -> Z + error.
Variable time_Format : time -> string -> string.

(** X21.  A request the handlers cannot read never reaches the use cases:
    when the id does not parse, [GetTask], [UpdateTask] and [DeleteTask]
    answer 400 "invalid task id"; when the body does not bind, [CreateTask]
    and [UpdateTask] answer 400 "invalid request body"; in each case the
    recording repository saw no call and the world is as it was. *)
Theorem unreadable_requests_are_refused (c : C) (w : W) :
  let bad_id := {| Status := 400; Payload := JSONError "invalid task id" |} in
  let bad_body := {| Status := 400; Payload := JSONError "invalid request body" |} in
  (forall err, strconv_ParseInt (Param c "id") 10 64 = inr err ->
     GetTask (W := Spied W) strconv_ParseInt time_Format c (w, []) = (bad_id, (w, []))
     /\ UpdateTask (W := Spied W) strconv_ParseInt time_Format c (w, [])
        = (bad_id, (w, []))
     /\ DeleteTask (W := Spied W) strconv_ParseInt c (w, []) = (bad_id, (w, [])))
  /\ (forall err, BindCreate c = inr err ->
        CreateTask (W := Spied W) time_Format c (w, []) = (bad_body, (w, [])))
  /\ (forall err id, strconv_ParseInt (Param c "id") 10 64 = inl id ->
        BindUpdate c = inr err ->
        UpdateTask (W := Spied W) strconv_ParseInt time_Format c (w, [])
        = (bad_body, (w, []))).
Proof.
  cbv zeta. split; [| split].
  - intros err Hid. unfold GetTask, UpdateTask, DeleteTask. now rewrite Hid.
  - intros err Hbind. unfold CreateTask. now rewrite Hbind.
  - intros err id Hid Hbind. unfold UpdateTask. now rewrite Hid, Hbind.
Qed.

(** X22.  [POST /tasks] with a body that binds: a title or description
    that fails a check is answered 400 with the text of that check's error
    and nothing is stored; otherwise [Create] is called once and the answer
    is 201 with the id, title, description and completion of the task as
    [Create] left it and its two times formatted as RFC 3339, or, when
    [Create] fails, 400 with the text of its error. *)
Theorem CreateTask_answers (c : C) (req : CreateTaskRequest) (w : W) :
  BindCreate c = inl req ->
  let title := req_create_Title req in
  let description := req_create_Description req in
  let run := CreateTask (W := Spied W) time_Format c (w, []) in
  (title = "" ->
   run = ({| Status := 400; Payload := JSONError "task title cannot be empty" |}, (w, [])))
  /\ (200 < len title ->
      run = ({| Status := 400;
                Payload := JSONError "task title cannot exceed 200 characters" |},
             (w, [])))
  /\ (title <> "" -> len title <= 200 -> 1000 < len description ->
      run = ({| Status := 400;
                Payload := JSONError "task description cannot exceed 1000 characters" |},
             (w, [])))
  /\ (title <> "" -> len title <= 200 -> len description <= 1000 ->
      let task := {| ID := 0; Title := title; Description := description;
                     Completed := false; CreatedAt := fst (time_Now w);
                     UpdatedAt := fst (time_Now w) |} in
      let answer := Create task (snd (time_Now w)) in
      snd run = (snd answer, [CallCreate task])
      /\ fst run = match fst (fst answer) with
                   | Some err => {| Status := 400; Payload := JSONError (Error err) |}
                   | None =>
                     let stored := snd (fst answer) in
                     {| Status := 201;
                        Payload :=
                          JSONTask
                            {| resp_ID := ID stored;
                               resp_Title := Title stored;
                               resp_Description := Description stored;
                               resp_Completed := Completed stored;
                               resp_CreatedAt :=
                                 time_Format (CreatedAt stored) "2006-01-02T15:04:05Z07:00";
                               resp_UpdatedAt :=
                                 time_Format (UpdatedAt stored) "2006-01-02T15:04:05Z07:00" |} |}
                   end).
Proof.
  intros Hbind title description run. subst title description run.
  unfold CreateTask. rewrite Hbind. unfold bind.
  set (input := {| CleanArch.usecase.create_Title := req_create_Title req;
                   CleanArch.usecase.create_Description := req_create_Description req |}).
  pose proof (CreateTask_outcome input w) as [_ Hok]. cbv zeta in Hok.
  assert (Hfail : forall err,
             NewTask (req_create_Title req) (req_create_Description req) w = (inr err, w) ->
             CleanArch.usecase.CreateTask (W := Spied W) input (w, []) = (inr err, (w, []))).
  { intros err Hnew. unfold CleanArch.usecase.CreateTask, bind.
    rewrite spy_NewTask_run. cbn [CleanArch.usecase.create_Title
      CleanArch.usecase.create_Description input]. now rewrite Hnew. }
  pose proof (NewTask_result (req_create_Title req) (req_create_Description req) w)
    as (Htitle & Hdesc & _).
  repeat apply conj.
  - intros He. rewrite (Hfail ErrEmptyTitle); [reflexivity |].
    apply Htitle. now rewrite He.
  - intros Hlong. rewrite (Hfail ErrTitleTooLong); [reflexivity |].
    apply Htitle. now apply ValidateTitle_long.
  - intros Hne Hshort Hlong. rewrite (Hfail ErrDescriptionTooLong); [reflexivity |].
    apply Hdesc; [now apply ValidateTitle_None | assumption].
  - intros Hne Hshort Hd. specialize (Hok Hne Hshort Hd).
    cbn [CleanArch.usecase.create_Title CleanArch.usecase.create_Description input] in Hok.
    destruct Hok as [Hworld Hresult].
    destruct (CleanArch.usecase.CreateTask (W := Spied W) input (w, [])) as [r s].
    cbn [fst snd] in *. subst s r.
    destruct (Create _ (snd (time_Now w))) as [[[err |] t'] w2]; cbn [fst snd];
      now split.
Qed.

(** X23.  The reading handlers.  [GET /tasks/:id] with an id that parses
    looks the task up once and answers 404 "task not found" whatever error
    the lookup gives, and otherwise 200 with the id, title, description
    and completion of the task and its two times formatted as RFC 3339.
    [GET /tasks] answers 500 when the repository fails and otherwise 200
    with one such entry per task, in the order of the repository. *)
Theorem reading_handlers_answer (c : C) (w : W) :
  (forall id, strconv_ParseInt (Param c "id") 10 64 = inl id ->
     let run := GetTask (W := Spied W) strconv_ParseInt time_Format c (w, []) in
     snd run = (snd (GetByID id w), [CallGetByID id])
     /\ fst run = match fst (GetByID id w) with
                  | inr _ => {| Status := 404; Payload := JSONError "task not found" |}
                  | inl task =>
                    {| Status := 200;
                       Payload :=
                         JSONTask
                           {| resp_ID := ID task;
                              resp_Title := Title task;
                              resp_Description := Description task;
                              resp_Completed := Completed task;
                              resp_CreatedAt :=
                                time_Format (CreatedAt task) "2006-01-02T15:04:05Z07:00";
                              resp_UpdatedAt :=
                                time_Format (UpdatedAt task) "2006-01-02T15:04:05Z07:00" |} |}
                  end)
  /\ (let run := CleanArchRest.GetAllTasks (W := Spied W) time_Format c (w, []) in
      snd run = (snd (GetAll w), [CallGetAll])
      /\ fst run = match snd (fst (GetAll w)) with
                   | Some _ => {| Status := 500;
                                  Payload := JSONError "failed to retrieve tasks" |}
                   | None =>
                     {| Status := 200;
                        Payload :=
                          JSONTasks
                            (List.map
                               (fun task =>
                                  {| resp_ID := ID task;
                                     resp_Title := Title task;
                                     resp_Description := Description task;
                                     resp_Completed := Completed task;
                                     resp_CreatedAt :=
                                       time_Format (CreatedAt task)
                                                   "2006-01-02T15:04:05Z07:00";
                                     resp_UpdatedAt :=
                                       time_Format (UpdatedAt task)
                                                   "2006-01-02T15:04:05Z07:00" |})
                               (fst (fst (GetAll w)))) |}
                   end).
Proof.
  split.
  - intros id Hid. cbv zeta. unfold GetTask. rewrite Hid.
    unfold bind, CleanArch.usecase.GetTask, bind. rewrite spy_GetByID.
    cbn [fst snd app]. now destruct (GetByID id w) as [[task | err] w1].
  - cbv zeta. unfold CleanArchRest.GetAllTasks, CleanArch.usecase.GetAllTasks, bind.
    cbn [GetAll SpyRepository]. unfold logged. cbn [fst snd app].
    now destruct (GetAll w) as [[tasks [err |]] w1].
Qed.

End Handlers.

(** Runs of X21, X22 and X23 on the store in memory. *)
Lemma unreadable_requests_are_refused_example :
  DeleteTask (W := Spied Mem) ParseInt (examples.request_for "4x2") (examples.pantry, [])
  = ({| Status := 400; Payload := JSONError "invalid task id" |}, (examples.pantry, [])).
Proof.
  exact (proj2 (proj2 (proj1 (unreadable_requests_are_refused (W := Mem) ParseInt Format
                                (examples.request_for "4x2") examples.pantry)
                         (errors_New "strconv.ParseInt: invalid syntax") eq_refl))).
Defined.

Lemma CreateTask_answers_example :
  CreateTask (W := Spied Mem) Format (more_examples.post_task "") (examples.pantry, [])
  = ({| Status := 400; Payload := JSONError "task title cannot be empty" |},
     (examples.pantry, []))
  /\ Status (fst (CreateTask (W := Spied Mem) Format (more_examples.post_task "Buy bread")
                    (examples.pantry, []))) = 201.
Proof.
  split.
  - exact (proj1 (CreateTask_answers (W := Mem) Format (more_examples.post_task "") _
                    examples.pantry eq_refl) eq_refl).
  - reflexivity.
Defined.

Lemma reading_handlers_answer_example :
  Status (fst (GetTask (W := Spied Mem) ParseInt Format (examples.request_for "7")
                 (examples.pantry, []))) = 404
  /\ Status (fst (GetTask (W := Spied Mem) ParseInt Format (examples.request_for "42")
                    (examples.pantry, []))) = 200.
Proof.
  pose proof (reading_handlers_answer (W := Mem) (taskRepo := MemRepository) ParseInt Format
                (examples.request_for "7") examples.pantry) as [H7 _].
  pose proof (reading_handlers_answer (W := Mem) (taskRepo := MemRepository) ParseInt Format
                (examples.request_for "42") examples.pantry) as [H42 _].
  split.
  - now rewrite (proj2 (H7 7 eq_refl)).
  - now rewrite (proj2 (H42 42 eq_refl)).
Defined.

End TaskHandlerProofs.

(** ** ddd-example: prices, discounts and the product service *)

Module ProductProofs.
Import Float64 Float64Facts DDD.model DDD.service.
Import DDDRest.model DDDRest.repository DDDRest.application DDDRest.spy.

Lemma above_zero_not_at_most (x : float64) : gtb x zero = true -> leb x zero = false.
Proof. destruct x as [s | [] | | [] m e]; cbn; intros H; try discriminate; reflexivity. Qed.

Lemma not_below_zero_at_most (x : float64) :
  ltb x zero = false -> leb x zero = true -> exists s, x = S754_zero s.
Proof.
  destruct x as [s | [] | | [] m e]; cbn; intros H1 H2; try discriminate.
  now exists s.
Qed.

Section Products.
Context {W : Type} {clock : Clock W}.

(** X24.  The prices [NewMoney] hands out that [ChangePrice] refuses are
    the zeros, and only they: [NewMoney] tests [amount < 0] and
    [ChangePrice] tests [amount <= 0].  A refused price leaves the product and
    the clock alone; an accepted one replaces the price and stamps
    [updatedAt], and nothing else. *)
Theorem only_zero_prices_are_refused
  (p : DDD.model.Product) (a : float64) (c : string) (m : DDD.model.Money) (w : W) :
  DDD.model.NewMoney a c = (m, None) ->
  m = {| DDD.model.amount := a; DDD.model.currency := c |}
  /\ ((exists s, a = S754_zero s) ->
      ChangePrice p m w = ((Some (errors_New "price must be positive"), p), w))
  /\ ((forall s, a <> S754_zero s) ->
      ChangePrice p m w
      = ((None, {| DDD.model.id := DDD.model.id p; name := name p;
                   description := description p; price := m; category := category p;
                   DDD.model.createdAt := DDD.model.createdAt p;
                   DDD.model.updatedAt := fst (time_Now w) |}),
         snd (time_Now w))).
Proof.
  unfold DDD.model.NewMoney. destruct (ltb a zero) eqn:Hneg; [discriminate |].
  intros [= <-]. split; [reflexivity |]. unfold ChangePrice. cbn [DDD.model.amount].
  split.
  - intros [s ->]. reflexivity.
  - intros Hnz. destruct (leb a zero) eqn:Hle.
    + destruct (not_below_zero_at_most a Hneg Hle) as [s ->]. now destruct (Hnz s).
    + unfold bind, ret. now destruct (time_Now w).
Qed.

(** X25.  The range check of [ApplyDiscount]: a discount below 0 or above
    100 gives the range error and leaves the product and the clock alone; a
    discount the check lets through never gives that error.  NaN is neither
    below 0 nor above 100: with a NaN discount every product, whatever its
    price, ends with the price NaN, and no error. *)
Theorem ApplyDiscount_range_check (product : DDD.model.Product) (d : float64) (w : W) :
  (ltb d zero || gtb d hundred = true ->
   ApplyDiscount product d w
   = ((Some (errors_New "discount must be between 0 and 100"), product), w))
  /\ (ltb d zero || gtb d hundred = false ->
      fst (fst (ApplyDiscount product d w))
      <> Some (errors_New "discount must be between 0 and 100"))
  /\ ApplyDiscount product nan w
     = ((None, {| DDD.model.id := DDD.model.id product; name := name product;
                  description := description product;
                  price := {| DDD.model.amount := nan;
                              DDD.model.currency := DDD.model.currency (price product) |};
                  category := category product;
                  DDD.model.createdAt := DDD.model.createdAt product;
                  DDD.model.updatedAt := fst (time_Now w) |}),
        snd (time_Now w)).
Proof.
  split; [| split].
  - intros Hout. unfold ApplyDiscount. now rewrite Hout.
  - intros Hin. unfold ApplyDiscount. rewrite Hin. cbv zeta.
    unfold DDD.model.NewMoney. destruct (ltb (sub _ _) zero); [cbn; discriminate |].
    unfold ChangePrice. cbn [DDD.model.amount].
    destruct (leb (sub _ _) zero); [cbn; discriminate |].
    unfold bind, ret. destruct (time_Now w). cbn. discriminate.
  - unfold ApplyDiscount.
    replace (ltb nan zero || gtb nan hundred) with false by reflexivity.
    cbv zeta.
    replace (div nan hundred) with nan by reflexivity.
    assert (Hmul : forall x, mul x nan = nan) by (now intros [| | |]).
    assert (Hsub : forall x, sub x nan = nan) by (now intros [| | |]).
    unfold Amount, Price, Currency. rewrite Hmul, Hsub.
    unfold DDD.model.NewMoney.
    replace (ltb nan zero) with false by reflexivity.
    unfold ChangePrice. cbn [DDD.model.amount].
    replace (leb nan zero) with false by reflexivity.
    unfold bind, ret. now destruct (time_Now w).
Qed.

(** X26.  A discount of 0 (either zero) on a product whose price is a
    finite number above 0 succeeds and keeps the price as it is, bit for
    bit: only [updatedAt] is stamped. *)
Theorem ApplyDiscount_nothing_off (product : DDD.model.Product) (s : bool) (w : W) :
  is_finite (DDD.model.amount (price product)) = true ->
  gtb (DDD.model.amount (price product)) zero = true ->
  ApplyDiscount product (S754_zero s) w
  = ((None, {| DDD.model.id := DDD.model.id product; name := name product;
               description := description product; price := price product;
               category := category product;
               DDD.model.createdAt := DDD.model.createdAt product;
               DDD.model.updatedAt := fst (time_Now w) |}),
     snd (time_Now w)).
Proof.
  destruct product as [i n d [a c] cat created updated]. cbn [price DDD.model.amount].
  intros Hfinite Hpositive.
  destruct a as [sa | sa | | sa m e]; try discriminate.
  destruct sa; [discriminate |].
  unfold ApplyDiscount.
  replace (ltb (S754_zero s) zero || gtb (S754_zero s) hundred) with false
    by (now destruct s).
  cbv zeta. unfold Amount, Price, Currency. cbn [price DDD.model.amount DDD.model.currency].
  replace (div (S754_zero s) hundred) with (S754_zero s) by (now destruct s).
  replace (mul (S754_finite false m e) (S754_zero s)) with (S754_zero s)
    by (now destruct s).
  replace (sub (S754_finite false m e) (S754_zero s)) with (S754_finite false m e)
    by reflexivity.
  unfold DDD.model.NewMoney.
  replace (ltb (S754_finite false m e) zero) with false by reflexivity.
  unfold ChangePrice. cbn [DDD.model.amount].
  replace (leb (S754_finite false m e) zero) with false by reflexivity.
  unfold bind, ret. now destruct (time_Now w).
Qed.

(** X27.  What a successful [ApplyDiscount] leaves behind: the discount was
    let through by the range check; the product keeps its id, name,
    description, category, creation time and currency; the new amount is the
    old one minus the old one times a hundredth of the discount;
    [updatedAt] is the one reading of the clock; and the new amount is
    neither below 0 nor at most 0. *)
Theorem ApplyDiscount_success
  (product p' : DDD.model.Product) (d : float64) (w w' : W) :
  ApplyDiscount product d w = ((None, p'), w') ->
  let old := DDD.model.amount (price product) in
  ltb d zero = false /\ gtb d hundred = false
  /\ p' = {| DDD.model.id := DDD.model.id product; name := name product;
             description := description product;
             price := {| DDD.model.amount := sub old (mul old (div d hundred));
                         DDD.model.currency := DDD.model.currency (price product) |};
             category := category product;
             DDD.model.createdAt := DDD.model.createdAt product;
             DDD.model.updatedAt := fst (time_Now w) |}
  /\ w' = snd (time_Now w)
  /\ ltb (DDD.model.amount (price p')) zero = false
  /\ leb (DDD.model.amount (price p')) zero = false.
Proof.
  unfold ApplyDiscount.
  destruct (ltb d zero || gtb d hundred) eqn:Hrange; [discriminate |].
  apply orb_false_elim in Hrange. destruct Hrange as [Hlow Hhigh].
  cbv zeta. unfold Amount, Price, Currency, DDD.model.NewMoney.
  destruct (ltb (sub _ _) zero) eqn:Hneg; [discriminate |].
  unfold ChangePrice. cbn [DDD.model.amount].
  destruct (leb (sub _ _) zero) eqn:Hle; [discriminate |].
  unfold bind, ret. destruct (time_Now w) as [now w1].
  intros [= <- <-]. cbn [fst snd price DDD.model.amount]. now repeat split.
Qed.

End Products.

Section Service.
Context {W : Type} {clock : Clock W} {uuid : Integration.order.Uuid W} {repo : ProductRepository W}.

Lemma product_spy_Save (p : DDD.model.Product) (w : W) (log : list Call) :
  Save (W := Spied W) p (w, log)
  = (fst (Save p w), (snd (Save p w), (log ++ [CallSave p])%list)).
Proof. cbn. unfold logged. cbn. now destruct (Save p w). Qed.

Lemma product_spy_FindByID (i : ProductID) (w : W) (log : list Call) :
  FindByID (W := Spied W) i (w, log)
  = (fst (FindByID i w), (snd (FindByID i w), (log ++ [CallFindByID i])%list)).
Proof. cbn. unfold logged. cbn. now destruct (FindByID i w). Qed.

Lemma product_spy_time_Now (w : W) (log : list Call) :
  time_Now (W := Spied W) (w, log) = (fst (time_Now w), (snd (time_Now w), log)).
Proof. cbn. unfold unlogged. cbn. now destruct (time_Now w). Qed.

Lemma product_spy_uuid_New (w : W) (log : list Call) :
  Integration.order.uuid_New (W := Spied W) (w, log) = (fst (Integration.order.uuid_New w), (snd (Integration.order.uuid_New w), log)).
Proof. cbn. unfold unlogged. cbn. now destruct (Integration.order.uuid_New w). Qed.

Lemma spy_ChangePrice_run (p : DDD.model.Product) (m : DDD.model.Money) (w : W)
  (log : list Call) :
  ChangePrice (W := Spied W) p m (w, log)
  = (fst (ChangePrice p m w), (snd (ChangePrice p m w), log)).
Proof.
  unfold ChangePrice. destruct (leb _ zero); [reflexivity |].
  unfold bind, ret. rewrite product_spy_time_Now. cbn [fst snd].
  now destruct (time_Now w).
Qed.

Lemma spy_ApplyDiscount_run (p : DDD.model.Product) (d : float64) (w : W)
  (log : list Call) :
  ApplyDiscount (W := Spied W) p d (w, log)
  = (fst (ApplyDiscount p d w), (snd (ApplyDiscount p d w), log)).
Proof.
  unfold ApplyDiscount. destruct (ltb d zero || gtb d hundred); [reflexivity |].
  cbv zeta. destruct (DDD.model.NewMoney _ _) as [newPrice [err |]]; [reflexivity |].
  apply spy_ChangePrice_run.
Qed.

(** X28.  [ApplyDiscountToProduct], over a recording repository.  A failed
    lookup is returned as it is and nothing is saved.  When the discount
    fails, its error is returned and nothing is saved: the repository saw
    the lookup only, and the clock was not read.  When it succeeds [Save]
    is called exactly once, on the discounted product, and its error, or
    nil, is the result. *)
Theorem ApplyDiscountToProduct_outcome (productID : ProductID) (discount : float64) (w : W) :
  let run := ApplyDiscountToProduct (W := Spied W) productID discount (w, []) in
  (forall err w1, FindByID productID w = (inr err, w1) ->
                  run = (Some err, (w1, [CallFindByID productID])))
  /\ (forall product w1 err,
        FindByID productID w = (inl product, w1) ->
        fst (fst (ApplyDiscount product discount w1)) = Some err ->
        run = (Some err, (w1, [CallFindByID productID])))
  /\ (forall product w1,
        FindByID productID w = (inl product, w1) ->
        fst (fst (ApplyDiscount product discount w1)) = None ->
        let discounted := snd (fst (ApplyDiscount product discount w1)) in
        let answer := Save discounted (snd (ApplyDiscount product discount w1)) in
        run = (fst (fst answer),
               (snd answer, [CallFindByID productID; CallSave discounted]))).
Proof.
  cbv zeta. unfold ApplyDiscountToProduct, bind. rewrite product_spy_FindByID.
  split; [| split].
  - intros err w1 ->. reflexivity.
  - intros product w1 err -> Herr. cbn [fst snd app].
    rewrite spy_ApplyDiscount_run.
    destruct (ApplyDiscount product discount w1) as [[e p'] w2] eqn:Hrun.
    cbn in Herr. subst e.
    apply PricingProofs.ApplyDiscount_error in Hrun. destruct Hrun as [-> ->].
    reflexivity.
  - intros product w1 -> Hok. cbn [fst snd app].
    rewrite spy_ApplyDiscount_run.
    destruct (ApplyDiscount product discount w1) as [[e p'] w2].
    cbn in Hok. subst e. cbn [fst snd]. rewrite product_spy_Save. cbn [fst snd app].
    now destruct (Save p' w2) as [[err p''] w3].
Qed.

Lemma spy_NewProduct_run (n d : string) (m : DDD.model.Money) (c : Category) (w : W)
  (log : list Call) :
  NewProduct (W := Spied W) n d m c (w, log)
  = (fst (NewProduct n d m c w), (snd (NewProduct n d m c w), log)).
Proof.
  unfold NewProduct. destruct (String.eqb n ""); [reflexivity |].
  unfold NewProductID, bind, ret. rewrite product_spy_time_Now. cbn [fst snd].
  destruct (time_Now w) as [now w1]. cbn [fst snd].
  rewrite product_spy_uuid_New. now destruct (Integration.order.uuid_New w1).
Qed.

(** X29.  [CreateProduct], over a recording repository.  The checks run in
    the order price, category, name, and the first that fails gives the
    result: nothing is saved, and neither the clock nor the id source is
    read.  The price check refuses amounts below 0 only, so a price of 0,
    which [ChangePrice] would refuse, is accepted here.  When the checks
    pass, [Save] is called exactly once, on a product made of the fields of
    the request, with a fresh id and both times set to the one reading of
    the clock; the error of [Save], or the product, is the result. *)
Theorem CreateProduct_outcome (dto : CreateProductDTO) (w : W) :
  let run := CreateProduct (W := Spied W) dto (w, []) in
  (ltb (dto_Price dto) zero = true ->
   run = (inr (errors_New "money amount cannot be negative"), (w, [])))
  /\ (ltb (dto_Price dto) zero = false -> dto_Category dto = "" ->
      run = (inr (errors_New "category name cannot be empty"), (w, [])))
  /\ (ltb (dto_Price dto) zero = false -> dto_Category dto <> "" -> dto_Name dto = "" ->
      run = (inr (errors_New "product name cannot be empty"), (w, [])))
  /\ (ltb (dto_Price dto) zero = false -> dto_Category dto <> "" -> dto_Name dto <> "" ->
      let now := fst (time_Now w) in
      let fresh := Integration.order.uuid_New (snd (time_Now w)) in
      let product :=
        {| DDD.model.id := {| ProductID_value := fst fresh |};
           name := dto_Name dto; description := dto_Description dto;
           price := {| DDD.model.amount := dto_Price dto;
                       DDD.model.currency := dto_Currency dto |};
           category := {| Category_name := dto_Category dto |};
           DDD.model.createdAt := now; DDD.model.updatedAt := now |} in
      let answer := Save product (snd fresh) in
      snd run = (snd answer, [CallSave product])
      /\ fst run = match fst (fst answer) with
                   | Some err => inr err
                   | None => inl (snd (fst answer))
                   end).
Proof.
  cbv zeta. unfold CreateProduct, DDD.model.NewMoney, NewCategory.
  split; [| split; [| split]].
  - intros ->. reflexivity.
  - intros -> ->. reflexivity.
  - intros -> Hcat ->. apply String.eqb_neq in Hcat. rewrite Hcat. reflexivity.
  - intros -> Hcat Hname.
    apply String.eqb_neq in Hcat. rewrite Hcat.
    unfold bind. rewrite spy_NewProduct_run.
    unfold NewProduct. apply String.eqb_neq in Hname. rewrite Hname.
    unfold NewProductID, bind, ret.
    destruct (time_Now w) as [now w1]. cbn [fst snd].
    destruct (Integration.order.uuid_New w1) as [fresh w2]. cbn [fst snd].
    rewrite product_spy_Save. cbn [fst snd app].
    now destruct (Save _ w2) as [[[err |] p'] w3].
Qed.

End Service.

Import ticking DDDRest.memory.

(** Runs of X24 to X29: the laptop that costs 80, and the shelf that holds
    it. *)
Lemma only_zero_prices_are_refused_example :
  ChangePrice (W := Ticks) examples.laptop (examples.usd zero) 7
  = ((Some (errors_New "price must be positive"), examples.laptop), 7).
Proof.
  exact (proj1 (proj2 (only_zero_prices_are_refused (W := Ticks) examples.laptop zero "USD"
                         (examples.usd zero) 7 eq_refl))
           (ex_intro _ false eq_refl)).
Defined.

Lemma ApplyDiscount_range_check_example :
  ApplyDiscount (W := Ticks) examples.laptop (of_Z 150) 7
  = ((Some (errors_New "discount must be between 0 and 100"), examples.laptop), 7).
Proof.
  exact (proj1 (ApplyDiscount_range_check (W := Ticks) examples.laptop (of_Z 150) 7) eq_refl).
Defined.

Lemma ApplyDiscount_nothing_off_example :
  price (snd (fst (ApplyDiscount (W := Ticks) examples.laptop zero 7)))
  = examples.usd (of_Z 80)
  /\ DDD.model.updatedAt (snd (fst (ApplyDiscount (W := Ticks) examples.laptop zero 7))) = 7.
Proof.
  now rewrite (ApplyDiscount_nothing_off (W := Ticks) examples.laptop false 7
                 eq_refl eq_refl).
Defined.

Lemma ApplyDiscount_success_example :
  price (snd (fst (ApplyDiscount (W := Ticks) examples.laptop (of_Z 25) 7)))
  = examples.usd (of_Z 60).
Proof.
  assert (Hrun : ApplyDiscount (W := Ticks) examples.laptop (of_Z 25) 7
                 = ((None, snd (fst (ApplyDiscount (W := Ticks) examples.laptop (of_Z 25) 7))),
                    8))
    by (vm_compute; reflexivity).
  rewrite (proj1 (proj2 (proj2
             (ApplyDiscount_success (W := Ticks) examples.laptop _ (of_Z 25) 7 8 Hrun)))).
  vm_compute. reflexivity.
Defined.

Lemma ApplyDiscountToProduct_outcome_example :
  ApplyDiscountToProduct (W := Spied Shelf) more_examples.laptop_id hundred
    (more_examples.shelf, [])
  = (Some (errors_New "price must be positive"),
     (more_examples.shelf, [CallFindByID more_examples.laptop_id])).
Proof.
  exact (proj1 (proj2 (ApplyDiscountToProduct_outcome (W := Shelf)
                         more_examples.laptop_id hundred more_examples.shelf))
           examples.laptop more_examples.shelf (errors_New "price must be positive")
           eq_refl eq_refl).
Defined.

Lemma CreateProduct_outcome_example :
  CreateProduct (W := Spied Shelf) (more_examples.new_product "" "" (of_Z (-1)))
    (more_examples.shelf, [])
  = (inr (errors_New "money amount cannot be negative"), (more_examples.shelf, []))
  /\ exists p,
       fst (CreateProduct (W := Spied Shelf)
              (more_examples.new_product "Mouse" "Accessories" zero)
              (more_examples.shelf, [])) = inl p
       /\ DDD.model.amount (price p) = zero.
Proof.
  split.
  - exact (proj1 (CreateProduct_outcome (W := Shelf)
                    (more_examples.new_product "" "" (of_Z (-1))) more_examples.shelf)
             eq_refl).
  - eexists. split; reflexivity.
Defined.

End ProductProofs.
